(** * runepub: fetching a Runeberg book and building an EPUB

    A shallow embedding of [runepub.py] and the properties of its index-file
    parser, page reader, chapter-body builder, EPUB writer and command-line
    pipeline.

    Conventions of the embedding.
    - A Python [str] is a [string]; a character is an 8-bit code point
      ([ascii]), so text outside Latin-1 is outside the model.
    - A Python [int] is a [Z]; a chapter index, which only counts up from 0,
      is a [nat].
    - A function that may raise returns a [result]; a function that reads or
      changes the file system or the network is a function on [world]s, in
      the monad [M].
    - A text file is the [string] obtained by decoding it; decoding errors
      are outside the model. *)

From stdpp Require Import gmap strings list fin_maps.
From Stdlib Require Import ZArith Ascii DecimalString DecimalN.

#[local] Open Scope Z_scope.

(** ** Python strings *)

Module Py.

(** The double quote, line feed, carriage return and tab characters. *)
Definition dquote : string := String (ascii_of_nat 34) "".
Definition nl : string := String (ascii_of_nat 10) "".
Definition cr : ascii := ascii_of_nat 13.
Definition lf : ascii := ascii_of_nat 10.
Definition tab : string := String (ascii_of_nat 9) "".

(** [str.isspace] on one character: the code points below 256 that
    Python's [str] treats as white space. *)
Definition isspace (c : ascii) : bool :=
  let n := N_of_ascii c in
  ((9 <=? n) && (n <=? 13) || (28 <=? n) && (n <=? 32)
   || (n =? 133) || (n =? 160))%N.

Fixpoint lstrip (s : string) : string :=
  match s with
  | "" => ""
  | String c r => if isspace c then lstrip r else s
  end.

Fixpoint rstrip (s : string) : string :=
  match s with
  | "" => ""
  | String c r =>
      match rstrip r with
      | "" => if isspace c then "" else String c ""
      | r' => String c r'
      end
  end.

(** [s.strip()] *)
Definition strip (s : string) : string := rstrip (lstrip s).

(** Puts a character in front of the first piece of a split. *)
Definition cons_hd (c : ascii) (l : list string) : list string :=
  match l with
  | x :: xs => String c x :: xs
  | [] => [String c ""]
  end.

(** [s.split(sep)] for a separator of one character. *)
Fixpoint split (sep : ascii) (s : string) : list string :=
  match s with
  | "" => [""]
  | String c r =>
      if Ascii.eqb c sep then "" :: split sep r else cons_hd c (split sep r)
  end.

(** [s.split(sep, maxsplit)] for a separator of one character. *)
Fixpoint splitn (sep : ascii) (maxsplit : nat) (s : string) : list string :=
  match maxsplit with
  | O => [s]
  | S n =>
      match s with
      | "" => [""]
      | String c r =>
          if Ascii.eqb c sep then "" :: splitn sep n r
          else cons_hd c (splitn sep maxsplit r)
      end
  end.

(** [s.split()]: the maximal runs of characters that are not white space. *)
Fixpoint split_ws (s : string) : list string :=
  match s with
  | "" => []
  | String c r =>
      if isspace c then split_ws r
      else
        match r with
        | "" => [String c ""]
        | String d _ =>
            if isspace d then String c "" :: split_ws r
            else cons_hd c (split_ws r)
        end
  end.

Fixpoint startswith (pat s : string) : bool :=
  match pat, s with
  | "", _ => true
  | String _ _, "" => false
  | String a p, String b r => Ascii.eqb a b && startswith p r
  end.

(** [pat in s] *)
Fixpoint contains (pat s : string) : bool :=
  startswith pat s
  || match s with
     | "" => false
     | String _ r => contains pat r
     end.

(** [s.count(c)] for a pattern of one character. *)
Fixpoint count (c : ascii) (s : string) : nat :=
  match s with
  | "" => O
  | String a r => ((if Ascii.eqb a c then 1 else 0) + count c r)%nat
  end.

(** [s.replace(old, new)] for a pattern of one character. *)
Fixpoint replace (old : ascii) (new : string) (s : string) : string :=
  match s with
  | "" => ""
  | String a r =>
      if Ascii.eqb a old then new +:+ replace old new r
      else String a (replace old new r)
  end.

(** Removes the underscores that [int] allows between two digits; [None]
    when the text is empty or an underscore is not between two
    characters. *)
Fixpoint drop_underscores (after_digit : bool) (s : string)
  : option string :=
  match s with
  | "" => if after_digit then Some "" else None
  | String c r =>
      if Ascii.eqb c "_" then
        if after_digit then drop_underscores false r else None
      else String c <$> drop_underscores true r
  end.

(** [int(s)]: white space around, one optional sign, then decimal digits
    with single underscores between them; [None] stands for
    [ValueError]. The interpreter's limit on the number of digits (4300 by
    default since CPython 3.11) is not modelled. *)
Definition int (s : string) : option Z :=
  let s := strip s in
  let '(neg, body) :=
    match s with
    | String "+" r => (false, r)
    | String "-" r => (true, r)
    | _ => (false, s)
    end in
  digits ← drop_underscores false body;
  d ← NilEmpty.uint_of_string digits;
  Some (if neg : bool then - Z.of_N (N.of_uint d) else Z.of_N (N.of_uint d)).

(** [str(n)] for a natural number. *)
Definition decimal (n : N) : string :=
  NilZero.string_of_uint (N.to_uint n).

(** [c * n] *)
Fixpoint repeat (c : ascii) (n : nat) : string :=
  match n with
  | O => ""
  | S n => String c (repeat c n)
  end.

(** Pads with zeros on the left up to a width. *)
Definition zfill (width : nat) (s : string) : string :=
  repeat "0" (width - String.length s) +:+ s.

(** ["{0:04d}".format(n)]: the sign counts in the width. *)
Definition format_04d (n : Z) : string :=
  if n <? 0 then "-" +:+ zfill 3 (decimal (Z.abs_N n))
  else zfill 4 (decimal (Z.to_N n)).

(** [sep.join(l)] *)
Fixpoint join (sep : string) (l : list string) : string :=
  match l with
  | [] => ""
  | [x] => x
  | x :: xs => x +:+ sep +:+ join sep xs
  end.

(** Text mode reads [\r\n] and a lone [\r] as [\n]. *)
Fixpoint universal_newlines (s : string) : string :=
  match s with
  | "" => ""
  | String c r =>
      if Ascii.eqb c cr then
        match r with
        | "" => nl
        | String d _ =>
            if Ascii.eqb d lf then universal_newlines r
            else String lf (universal_newlines r)
        end
      else String c (universal_newlines r)
  end.

(** Cuts a text after every [\n]; each line keeps its [\n]. *)
Fixpoint splitlines (s : string) : list string :=
  match s with
  | "" => []
  | String c r =>
      if Ascii.eqb c lf then nl :: splitlines r
      else cons_hd c (splitlines r)
  end.

(** The lines that iterating over a file opened in text mode yields. *)
Definition lines (s : string) : list string :=
  splitlines (universal_newlines s).

End Py.

(** ** Paths ([posixpath]) *)

Module Path.

Fixpoint endswith_sep (s : string) : bool :=
  match s with
  | "" => false
  | String c "" => Ascii.eqb c "/"
  | String _ r => endswith_sep r
  end.

(** One step of [os.path.join]: an absolute component replaces what came
    before, any other is appended after a single separator. *)
Definition join2 (path b : string) : string :=
  if Py.startswith "/" b then b
  else if String.eqb path "" || endswith_sep path then path +:+ b
  else path +:+ "/" +:+ b.

(** [os.path.join(a, *p)] *)
Definition join (a : string) (p : list string) : string :=
  foldl join2 a p.

End Path.

(** ** Exceptions and results *)

Inductive exn : Type :=
  | ValueError
  | KeyError (key : string)
  | IndexError
  | AttributeError (name : string)
  | Exception (msg : string)
  | FileNotFoundError (path : string)
  | FileExistsError (path : string)
  | IsADirectoryError (path : string)
  | NotADirectoryError (path : string)
  | DirectoryNotEmpty (path : string)
  | ConnectionError (url : string)
  | BadZipFile (path : string)
  | ShutilError (path : string)
  | SystemExit.

(** The exceptions above that are subclasses of [OSError]. *)
Definition is_OSError (e : exn) : bool :=
  match e with
  | FileNotFoundError _ | FileExistsError _ | IsADirectoryError _
  | NotADirectoryError _ | DirectoryNotEmpty _ | ConnectionError _
  | ShutilError _ => true
  | _ => false
  end.

Inductive result (A : Type) : Type :=
  | Ok (a : A)
  | Raise (e : exn).
Arguments Ok {A} a.
Arguments Raise {A} e.

#[export] Instance result_ret : MRet result := @Ok.
#[export] Instance result_bind : MBind result := λ A B f m,
  match m with
  | Ok a => f a
  | Raise e => Raise e
  end.
#[export] Instance result_fmap : FMap result := λ A B f m,
  match m with
  | Ok a => Ok (f a)
  | Raise e => Raise e
  end.

(** [int(s)], raising [ValueError]. *)
Definition int_or_raise (s : string) : result Z :=
  match Py.int s with
  | Some n => Ok n
  | None => Raise ValueError
  end.

(** A list comprehension [[f(x) for x in l]] whose [f] may raise: the
    elements are computed from left to right, up to the first that raises. *)
Fixpoint comprehension {A B} (f : A → result B) (l : list A)
  : result (list B) :=
  match l with
  | [] => Ok []
  | x :: xs => y ← f x; ys ← comprehension f xs; Ok (y :: ys)
  end.

(** ** Chapters *)

Inductive ChapterType : Type := INDEX | REGULAR.

#[export] Instance ChapterType_eq_dec : EqDecision ChapterType.
Proof. solve_decision. Defined.

Module RuneChapter.
Record t : Type := Build {
  type : ChapterType;
  index : nat;
  title : string;
  ranges : list (list Z)
}.
End RuneChapter.

Module EPubChapter.
Record t : Type := Build {
  type : ChapterType;
  index : nat;
  title : string
}.

Definition id (c : t) : string :=
  "chapter" +:+ Py.format_04d (Z.of_nat (index c)).

Definition filename (c : t) : string := id c +:+ ".xhtml".
End EPubChapter.

(** ** The index file [Articles.lst] *)

(** One token of a range expression: [a-b] gives the integers between the
    dashes, a token with no dash gives its integer twice. *)
Definition parse_entry (entry : string) : result (list Z) :=
  if Py.contains "-" entry then comprehension int_or_raise (Py.split "-" entry)
  else x ← int_or_raise entry; Ok [x; x].

Definition parse_ranges (rangeexpr : string) : result (list (list Z)) :=
  comprehension parse_entry (Py.split_ws rangeexpr).

(** What one line of the index file contributes. *)
Inductive line_entry : Type :=
  | NoChapter
  | NewChapter (type : ChapterType) (title : string) (ranges : list (list Z)).

(** The body of the loop of [_parse_unpacked_rune_chapters], up to the point
    where the chapter is appended: [NoChapter] where the loop continues with
    the next line. *)
Definition parse_line (line : string) : result line_entry :=
  let line := hd "" (Py.split "#" line) in
  let line := Py.strip line in
  if String.eqb line "" then Ok NoChapter
  else if Py.contains "|" line then
    match Py.strip <$> Py.splitn "|" 2 line with
    | [type; title; rangeexpr] =>
        if String.eqb type "" then
          ranges ← parse_ranges rangeexpr; Ok (NewChapter REGULAR title ranges)
        else if String.eqb type "index" then
          ranges ← parse_ranges rangeexpr; Ok (NewChapter INDEX title ranges)
        else if String.eqb type "-" then Ok NoChapter
        else Raise (Exception ("Unknown chapter definition " +:+ line))
    | _ => Raise ValueError
    end
  else Ok NoChapter.

(** The loop of [_parse_unpacked_rune_chapters] over the lines of the file,
    with its counter [i] and its list [values]. *)
Fixpoint parse_lines (lines : list string) (i : nat)
    (values : list RuneChapter.t) : result (list RuneChapter.t) :=
  match lines with
  | [] => Ok values
  | line :: rest =>
      e ← parse_line line;
      match e with
      | NoChapter => parse_lines rest i values
      | NewChapter type title ranges =>
          parse_lines rest (S i)
            (values ++ [RuneChapter.Build type i title ranges])
      end
  end.

(** ** The host: file system, network, libraries *)

(** What the program takes from its host besides the file system and the
    network: the home directory ([Path.home()]) and the archive format of
    [zipfile], as a partial decoder of files into members (name and
    content; a directory member has a name ending in [/]) and an encoder. *)
Class Host : Type := {
  home : string;
  zip_decode : string → option (list (string * string));
  zip_encode : list (string * string) → string
}.

Record response : Type := Response {
  status_code : nat;
  raw : string
}.

Inductive stage : Type := Download | Unpack | BuildEpub | ZipEpub.

(** What a run does that is observed from outside its file system: the
    requests it sends, and the calls of the four stages in [main]. *)
Inductive event : Type :=
  | HttpGet (url : string)
  | Call (s : stage)
  | Return (s : stage).

(** The state of the host. A path is the string the program builds: two
    paths name the same file when they are equal strings. This is exact as
    long as there are no links, the book id has no empty, [.] or [..]
    component, and the working directory is not inside [~/.runepub]. The
    server answers a given URL in one way ([None]: no connection). *)
Record world : Type := World {
  files : gmap string string;
  dirs : gset string;
  net : string → option response;
  log : list event
}.

Definition M (A : Type) : Type := world → result A * world.

#[export] Instance M_ret : MRet M := λ A a w, (Ok a, w).
#[export] Instance M_bind : MBind M := λ A B f m w,
  match m w with
  | (Ok a, w') => f a w'
  | (Raise e, w') => (Raise e, w')
  end.

Definition raise {A} (e : exn) : M A := λ w, (Raise e, w).

Definition lift {A} (r : result A) : M A := λ w, (r, w).

(** [try: m except OSError: pass] *)
Definition try_except_OSError (m : M ()) : M () := λ w,
  match m w with
  | (Raise e, w') => if is_OSError e then (Ok (), w') else (Raise e, w')
  | r => r
  end.

(** [for x in l: body(x)] *)
Fixpoint for_each {A} (l : list A) (body : A → M ()) : M () :=
  match l with
  | [] => mret ()
  | x :: xs => body x;; for_each xs body
  end.

Definition emit (e : event) : M () := λ w,
  (Ok (), World (files w) (dirs w) (net w) (log w ++ [e])).

Module Os.

(** [p[:i], p[i:]] for [i] just after the last [/] of [p]. *)
Fixpoint split_last (p : string) : string * string :=
  match p with
  | "" => ("", "")
  | String c r =>
      let '(h, t) := split_last r in
      if Py.contains "/" r then (String c h, t)
      else if Ascii.eqb c "/" then ("/", r)
      else ("", String c r)
  end.

(** [head.rstrip('/')] *)
Fixpoint rstrip_sep (s : string) : string :=
  match s with
  | "" => ""
  | String c r =>
      match rstrip_sep r with
      | "" => if Ascii.eqb c "/" then "" else String c ""
      | r' => String c r'
      end
  end.

Definition strip_head (head : string) : string :=
  if String.eqb head "" || String.eqb (Py.replace "/" "" head) "" then head
  else rstrip_sep head.

(** [os.path.dirname] and [os.path.basename] *)
Definition dirname (p : string) : string := strip_head (split_last p).1.
Definition basename (p : string) : string := (split_last p).2.

Fixpoint ancestors_upto (n : nat) (p : string) : list string :=
  match n with
  | O => []
  | S n =>
      let d := dirname p in
      if String.eqb d "" || String.eqb d p then []
      else d :: ancestors_upto n d
  end.

(** The directories above a path, nearest first. *)
Definition ancestors (p : string) : list string :=
  ancestors_upto (String.length p) p.

(** Whether a path lies below a directory. *)
Definition inside (d p : string) : bool :=
  Py.startswith (Path.join2 d "") p.

Definition is_file (w : world) (p : string) : bool :=
  bool_decide (is_Some (files w !! p)).
Definition is_dir (w : world) (p : string) : bool :=
  bool_decide (p ∈ dirs w).

(** [os.path.isfile], [os.path.isdir], [os.path.exists] *)
Definition isfile (p : string) : M bool := λ w, (Ok (is_file w p), w).
Definition isdir (p : string) : M bool := λ w, (Ok (is_dir w p), w).
Definition exists_ (p : string) : M bool := λ w,
  (Ok (is_file w p || is_dir w p), w).

(** Whether the parent of a path is a directory; a path with no directory
    part lies in the working directory. *)
Definition parent_ok (w : world) (p : string) : bool :=
  String.eqb (dirname p) "" || is_dir w (dirname p).

(** [os.mkdir] *)
Definition mkdir (p : string) : M () := λ w,
  if is_file w p || is_dir w p then (Raise (FileExistsError p), w)
  else if negb (parent_ok w p) then (Raise (FileNotFoundError p), w)
  else (Ok (), World (files w) ({[p]} ∪ dirs w) (net w) (log w)).

(** [os.makedirs]: the directory and those above it that are missing. *)
Definition makedirs (p : string) : M () := λ w,
  if is_file w p || is_dir w p then (Raise (FileExistsError p), w)
  else if existsb (is_file w) (ancestors p)
  then (Raise (NotADirectoryError p), w)
  else (Ok (), World (files w)
                 ({[p]} ∪ list_to_set (ancestors p) ∪ dirs w)
                 (net w) (log w)).

(** [shutil.rmtree] *)
Definition rmtree (d : string) : M () := λ w,
  if is_dir w d then
    (Ok (), World (filter (λ kv, ¬ inside d kv.1) (files w))
              (filter (λ p, p ≠ d ∧ ¬ inside d p) (dirs w))
              (net w) (log w))
  else if is_file w d then (Raise (NotADirectoryError d), w)
  else (Raise (FileNotFoundError d), w).

(** Whether nothing lies below a directory. *)
Definition is_empty_dir (w : world) (d : string) : bool :=
  forallb (λ p, negb (inside d p)) (elements (dom (files w)))
  && forallb (λ p, negb (inside d p)) (elements (dirs w)).

(** [os.rmdir] *)
Definition rmdir (d : string) : M () := λ w,
  if is_dir w d then
    if is_empty_dir w d
    then (Ok (), World (files w) (dirs w ∖ {[d]}) (net w) (log w))
    else (Raise (DirectoryNotEmpty d), w)
  else if is_file w d then (Raise (NotADirectoryError d), w)
  else (Raise (FileNotFoundError d), w).

(** [open(p, "w")] followed by writes of [content] in all and by
    [close()]. *)
Definition write_file (p content : string) : M () := λ w,
  if is_dir w p then (Raise (IsADirectoryError p), w)
  else if negb (parent_ok w p) then (Raise (FileNotFoundError p), w)
  else (Ok (), World (<[p := content]> (files w)) (dirs w) (net w) (log w)).

(** A further [write] to a file that is open for writing. *)
Definition append_file (p text : string) : M () := λ w,
  (Ok (), World (alter (λ c, c +:+ text) p (files w)) (dirs w) (net w)
            (log w)).

(** [open(p, "r")] followed by reading all of the file. *)
Definition read_file (p : string) : M string := λ w,
  match files w !! p with
  | Some c => (Ok c, w)
  | None =>
      if is_dir w p then (Raise (IsADirectoryError p), w)
      else (Raise (FileNotFoundError p), w)
  end.

(** [os.rename] of a file. Renaming a directory is outside the model and
    raises. *)
Definition rename (src dst : string) : M () := λ w,
  match files w !! src with
  | Some c =>
      if is_dir w dst then (Raise (IsADirectoryError dst), w)
      else if negb (parent_ok w dst) then (Raise (FileNotFoundError dst), w)
      else (Ok (), World (<[dst := c]> (delete src (files w))) (dirs w)
                     (net w) (log w))
  | None =>
      if is_dir w src then (Raise (NotADirectoryError src), w)
      else (Raise (FileNotFoundError src), w)
  end.

(** [shutil.move]: into [dst] when it is a directory, else onto [dst]. *)
Definition move (src dst : string) : M () :=
  d ← isdir dst;
  if d : bool then
    let real_dst := Path.join dst [basename src] in
    e ← exists_ real_dst;
    if e : bool then raise (ShutilError real_dst) else rename src real_dst
  else rename src dst.

(** The files below a directory, as [os.walk] reaches them. *)
Definition walk (top : string) : M (list string) := λ w,
  (Ok (filter (λ p, inside top p) (elements (dom (files w)))), w).

End Os.

(** The server's answer to a request. *)
Definition answer (url : string) : M response := λ w,
  match net w url with
  | Some r => (Ok r, w)
  | None => (Raise (ConnectionError url), w)
  end.

(** [requests.get(url, stream=True)] *)
Definition requests_get (url : string) : M response :=
  emit (HttpGet url);; answer url.

(** ** The program *)

(** String constants are written with these abbreviations for the double
    quote, the line feed and the tab. *)
Abbreviation q := Py.dquote.
Abbreviation nl := Py.nl.
Abbreviation tab := Py.tab.

Definition HOST : string := "http://runeberg.org".

Record DownloadItem : Type := Build_DownloadItem {
  url : string;
  zip_filename : string
}.

Inductive ScopeState : Type := BEFORE | WITHIN | AFTER.

#[export] Instance ScopeState_eq_dec : EqDecision ScopeState.
Proof. solve_decision. Defined.

(** The state of the loop of [build_epub] over the lines of a chapter:
    [state], the text in [buff], and the text the loop itself has written to
    [out_stream]. *)
Record scope : Type := Scope {
  state : ScopeState;
  buff : string;
  out_stream : string
}.

(** The first statement of the loop body: a line with as many [<] as [>]
    stays, any other loses every [<] and [>]. *)
Definition normalize (line : string) : string :=
  if negb (Nat.eqb (Py.count "<" line) (Py.count ">" line))
  then Py.replace ">" "" (Py.replace "<" "" line)
  else line.

(** The rest of the loop body, on the line as the first statement left it. *)
Definition scope_step (type : ChapterType) (st : scope) (line : string)
  : scope :=
  match type with
  | REGULAR =>
      let st :=
        match state st with
        | BEFORE =>
            if Py.contains "<chapter" line
            then Scope WITHIN "" (out_stream st)
            else st
        | WITHIN =>
            if Py.contains "</chapter>" line
            then Scope AFTER (buff st) (out_stream st)
            else st
        | AFTER => st
        end in
      if bool_decide (state st ≠ AFTER) then
        if negb (Py.contains "<chapter" line)
           && negb (Py.contains "</chapter>" line)
        then Scope (state st) (buff st +:+ line +:+ nl) (out_stream st)
        else st
      else st
  | INDEX => Scope (state st) (buff st) (out_stream st +:+ line +:+ nl)
  end.

(** The body of the loop over the lines of a chapter. *)
Definition body_step (type : ChapterType) (st : scope) (line : string)
  : scope :=
  scope_step type st (normalize line).

(** The loop over the lines of a chapter, from [state = BEFORE] and an empty
    [buff]. *)
Definition body_loop (type : ChapterType) (lines : list string) : scope :=
  foldl (body_step type) (Scope BEFORE "" "") lines.

(** What stands between [<body>] and [</body>] in a chapter file: what the
    loop wrote, then [buff.getvalue()]. *)
Definition chapter_body (type : ChapterType) (lines : list string) : string :=
  let st := body_loop type lines in
  out_stream st +:+ buff st.

(** One line of [Metadata] in the loop of [_parse_unpacked_metadata]. *)
Definition metadata_line (values : gmap string string) (line : string)
  : result (gmap string string) :=
  let line := Py.strip line in
  if Py.contains ":" line then
    match Py.strip <$> Py.splitn ":" 1 line with
    | [key; value] => Ok (<[key := value]> values)
    | _ => Raise ValueError
    end
  else Ok values.

Fixpoint metadata_lines (lines : list string) (values : gmap string string)
  : result (gmap string string) :=
  match lines with
  | [] => Ok values
  | line :: rest => values ← metadata_line values line; metadata_lines rest values
  end.

(** [ZipInfo.from_file]'s name of a member: [os.path.normpath], then no
    leading separator. *)
Definition normpath_step (initial_slashes : nat) (new_comps : list string)
    (comp : string) : list string :=
  if String.eqb comp "" || String.eqb comp "." then new_comps
  else if negb (String.eqb comp "..")
          || (Nat.eqb initial_slashes 0 && bool_decide (new_comps = []))
          || bool_decide (last new_comps = Some "..")
  then new_comps ++ [comp]
  else removelast new_comps.

Definition normpath (path : string) : string :=
  if String.eqb path "" then "."
  else
    let initial_slashes :=
      if Py.startswith "/" path then
        if Py.startswith "//" path && negb (Py.startswith "///" path)
        then 2%nat else 1%nat
      else 0%nat in
    let comps := Py.split "/" path in
    let new_comps := foldl (normpath_step initial_slashes) [] comps in
    let path := Py.join "/" new_comps in
    let path := Py.repeat "/" initial_slashes +:+ path in
    if String.eqb path "" then "." else path.

Fixpoint lstrip_sep (s : string) : string :=
  match s with
  | "" => ""
  | String c r => if Ascii.eqb c "/" then lstrip_sep r else s
  end.

Definition zip_arcname (arcname : string) : string :=
  lstrip_sep (normpath arcname).

Fixpoint drop_chars (n : nat) (s : string) : string :=
  match n, s with
  | O, _ => s
  | S n, String _ r => drop_chars n r
  | S _, "" => ""
  end.

(** The name under which [ZipFile.extractall] stores a member: its
    components other than the empty one, [.] and [..]. *)
Definition valid_part (x : string) : bool :=
  negb (String.eqb x "" || String.eqb x "." || String.eqb x "..").

Definition extract_name (filename : string) : string :=
  Py.join "/" (List.filter valid_part (Py.split "/" filename)).

(** The text of [META-INF/container.xml]. *)
Definition container_xml : string :=
  "<?xml version=" +:+ q +:+ "1.0" +:+ q +:+ " encoding=" +:+ q +:+ "utf-8" +:+ q +:+ "?>" +:+ nl
  +:+ "<container version=" +:+ q +:+ "1.0" +:+ q +:+ " xmlns=" +:+ q +:+ "urn:oasis:names:tc:opendocument:xmlns:container" +:+ q +:+ ">" +:+ nl
  +:+ "<rootfiles>" +:+ nl
  +:+ "<rootfile full-path=" +:+ q +:+ "OEBPS/book.opf" +:+ q +:+ " media-type=" +:+ q +:+ "application/oebps-package+xml" +:+ q +:+ "/>" +:+ nl
  +:+ "</rootfiles>" +:+ nl
  +:+ "</container>" +:+ nl.

(** The fixed lines of [book.opf] before the title. *)
Definition opf_head : string :=
  "<?xml version=" +:+ q +:+ "1.0" +:+ q +:+ " encoding=" +:+ q +:+ "utf-8" +:+ q +:+ "?>" +:+ nl
  +:+ "<package version=" +:+ q +:+ "2.0" +:+ q +:+ " xmlns=" +:+ q +:+ "http://www.idpf.org/2007/opf" +:+ q +:+ nl
  +:+ tab +:+ " unique-identifier=" +:+ q +:+ "abcdef" +:+ q +:+ ">" +:+ nl
  +:+ "  <metadata xmlns:dc=" +:+ q +:+ "http://purl.org/dc/elements/1.1/" +:+ q +:+ nl
  +:+ tab +:+ "    xmlns:opf=" +:+ q +:+ "http://www.idpf.org/2007/opf" +:+ q +:+ ">" +:+ nl.

(** The fixed lines of [book.opf] after the author. *)
Definition opf_meta : string :=
  "    <dc:language>en-US</dc:language>" +:+ nl
  +:+ "    <dc:identifier id=" +:+ q +:+ "abcdef" +:+ q +:+ ">abcdef</dc:identifier>" +:+ nl
  +:+ "  </metadata>" +:+ nl
  +:+ "  <manifest>" +:+ nl.

(** The fixed lines of [book.ncx] before the title. *)
Definition ncx_head : string :=
  "<?xml version=" +:+ q +:+ "1.0" +:+ q +:+ " encoding=" +:+ q +:+ "utf-8" +:+ q +:+ "?>" +:+ nl
  +:+ "<ncx version=" +:+ q +:+ "2005-1" +:+ q +:+ " xml:lang=" +:+ q +:+ "en" +:+ q +:+ " xmlns=" +:+ q +:+ "http://www.daisy.org/z3986/2005/ncx/" +:+ q +:+ ">" +:+ nl
  +:+ "  <head>" +:+ nl
  +:+ "    <meta name=" +:+ q +:+ "dtb:uid" +:+ q +:+ " content=" +:+ q +:+ "abcdef" +:+ q +:+ " />" +:+ nl
  +:+ "    <meta name=" +:+ q +:+ "dtb:depth" +:+ q +:+ " content=" +:+ q +:+ "1" +:+ q +:+ " />" +:+ nl
  +:+ "    <meta name=" +:+ q +:+ "dtb:totalPageCount" +:+ q +:+ " content=" +:+ q +:+ "0" +:+ q +:+ " />" +:+ nl
  +:+ "    <meta name=" +:+ q +:+ "dtb:maxPageNumber" +:+ q +:+ " content=" +:+ q +:+ "0" +:+ q +:+ " />" +:+ nl
  +:+ "  </head>" +:+ nl
  +:+ "  <docTitle>" +:+ nl.

(** The lines of a chapter file up to [<body>]. *)
Definition xhtml_head : string :=
  "<?xml version=" +:+ q +:+ "1.0" +:+ q +:+ " encoding=" +:+ q +:+ "utf-8" +:+ q +:+ "?>" +:+ nl
  +:+ "<!DOCTYPE html PUBLIC " +:+ q +:+ "-//W3C//DTD XHTML 1.1//EN" +:+ q +:+ " " +:+ q +:+ "http://www.w3.org/TR/xhtml11/DTD/xhtml11.dtd" +:+ q +:+ ">" +:+ nl
  +:+ "<html xmlns=" +:+ q +:+ "http://www.w3.org/1999/xhtml" +:+ q +:+ " xml:lang=" +:+ q +:+ "en" +:+ q +:+ ">" +:+ nl
  +:+ "<head>" +:+ nl
  +:+ "<meta http-equiv=" +:+ q +:+ "Content-Type" +:+ q +:+ " content=" +:+ q +:+ "application/xhtml+xml; charset=utf-8" +:+ q +:+ " />" +:+ nl
  +:+ "</head>" +:+ nl
  +:+ nl
  +:+ "<body>" +:+ nl.

(** The lines of a chapter file from [</body>]. *)
Definition xhtml_foot : string :=
  "</body>" +:+ nl
  +:+ "</html>" +:+ nl.

Module EpubWriter.
(** The writer object: the chapters added so far and the two files it keeps
    open. Their text reaches the disk when the interpreter closes them, at
    the latest when [build_epub] returns or the run ends; nothing reads them
    before, so their writes are modelled as immediate. *)
Record t : Type := Build {
  chapters : list EPubChapter.t;
  book_ncx : option string;
  book_opf : option string;
  build_dir : string
}.

Definition __init__ (build_dir author title : string) : M t :=
  Os.makedirs (Path.join build_dir ["OEBPS"]);;
  Os.makedirs (Path.join build_dir ["META-INF"]);;
  Os.write_file (Path.join build_dir ["mimetype"]) "application/epub+zip";;
  Os.write_file (Path.join build_dir ["META-INF"; "container.xml"])
    container_xml;;
  let book_opf := Path.join build_dir ["OEBPS"; "book.opf"] in
  Os.write_file book_opf
    (opf_head
     +:+ "    <dc:title>" +:+ title +:+ "</dc:title>" +:+ nl
     +:+ "    <dc:creator opf:role=" +:+ q +:+ "aut" +:+ q +:+ ">" +:+ author
     +:+ "</dc:creator>" +:+ nl
     +:+ opf_meta);;
  let book_ncx := Path.join build_dir ["OEBPS"; "book.ncx"] in
  Os.write_file book_ncx
    (ncx_head
     +:+ "    <text>" +:+ title +:+ "</text>" +:+ nl
     +:+ "  </docTitle>" +:+ nl);;
  mret (Build [] (Some book_ncx) (Some book_opf) build_dir).

Definition add_chapter (self : t) (chapter : EPubChapter.t) : t :=
  Build (chapters self ++ [chapter]) (book_ncx self) (book_opf self)
    (build_dir self).

Definition opf_item (chapter : EPubChapter.t) : string :=
  "    <item id=" +:+ q +:+ EPubChapter.id chapter +:+ q +:+ " href=" +:+ q
  +:+ EPubChapter.filename chapter +:+ q +:+ " media-type=" +:+ q
  +:+ "application/xhtml+xml" +:+ q +:+ " />" +:+ nl.

Definition opf_itemref (chapter : EPubChapter.t) : string :=
  "    <itemref idref=" +:+ q +:+ EPubChapter.id chapter +:+ q +:+ " />"
  +:+ nl.

Definition ncx_navpoint (chapter : EPubChapter.t) : string :=
  "    <navPoint id=" +:+ q +:+ EPubChapter.id chapter +:+ q
  +:+ " playOrder=" +:+ q
  +:+ Py.decimal (N.of_nat (EPubChapter.index chapter)) +:+ q +:+ ">" +:+ nl
  +:+ "      <navLabel><text>" +:+ EPubChapter.title chapter
  +:+ "</text></navLabel>" +:+ nl
  +:+ "      <content src=" +:+ q +:+ EPubChapter.filename chapter +:+ q
  +:+ "/>" +:+ nl
  +:+ "    </navPoint>" +:+ nl.

Definition concat_map (f : EPubChapter.t → string) (l : list EPubChapter.t)
  : string :=
  foldr (λ c acc, f c +:+ acc) "" l.

Definition opf_tail (self : t) : string :=
  concat_map opf_item (chapters self)
  +:+ "    <item id=" +:+ q +:+ "ncx" +:+ q +:+ " href=" +:+ q +:+ "book.ncx"
  +:+ q +:+ " media-type=" +:+ q +:+ "application/x-dtbncx+xml" +:+ q
  +:+ " />" +:+ nl
  +:+ "  </manifest>" +:+ nl
  +:+ "  <spine toc=" +:+ q +:+ "ncx" +:+ q +:+ ">" +:+ nl
  +:+ concat_map opf_itemref (chapters self)
  +:+ "  </spine>" +:+ nl
  +:+ "</package>" +:+ nl.

Definition ncx_tail (self : t) : string :=
  "  <navMap>" +:+ nl
  +:+ concat_map ncx_navpoint (chapters self)
  +:+ "  </navMap>" +:+ nl
  +:+ "</ncx>" +:+ nl.

Definition __exit__ (self : t) : M () :=
  match book_opf self with
  | Some f => Os.append_file f (opf_tail self)
  | None => mret ()
  end;;
  match book_ncx self with
  | Some f => Os.append_file f (ncx_tail self)
  | None => mret ()
  end.
End EpubWriter.

(** The command line of the program, as [argparse] is told it. *)
Record argument : Type := Argument {
  flags : list string;
  required : bool;
  dest : string
}.

Definition parser : list argument :=
  [Argument ["-i"; "--id"] true "id";
   Argument ["-a"; "--author"] true "author"].

(** [ArgumentParser.parse_args]: the values by destination, or [None] when
    the parser ends the program (an error in the command line, or the help
    it prints on request). A required argument has a value whenever the
    parser returns. *)
Class ArgParse : Type := {
  parse_args : list argument → list string → option (gmap string string);
  parse_args_required :
    ∀ spec argv args a,
      parse_args spec argv = Some args →
      a ∈ spec → required a = true → is_Some (args !! dest a)
}.

Section Runepub.
Context `{Host}.

Definition RUNEDIR : string := Path.join home [".runepub"].

Definition _get_download_items (bookname : string) : list DownloadItem :=
  [Build_DownloadItem
     (HOST +:+ "/download.pl?mode=txtzip&work=" +:+ bookname) "txt.zip"].

Definition _get_temp_dir (bookname : string) : string :=
  Path.join RUNEDIR [bookname; "temp"].

Definition _get_downloaded_dir (bookname : string) : string :=
  Path.join RUNEDIR [bookname; "downloaded"].

Definition _get_unpack_dir (bookname : string) : string :=
  Path.join RUNEDIR [bookname; "unpacked"].

Definition _get_build_dir (bookname : string) : string :=
  Path.join RUNEDIR [bookname; "build"].

(** The body of the loop of [download]. *)
Definition download_item (bookname temp_dir : string) (item : DownloadItem)
  : M () :=
  let url := url item in
  let zip_filename := zip_filename item in
  let downloaded_dir := _get_downloaded_dir bookname in
  let downloadedpath := Path.join downloaded_dir [zip_filename] in
  present ← Os.isfile downloadedpath;
  if present : bool then mret ()
  else
    d ← Os.isdir temp_dir;
    (if d : bool then mret () else Os.makedirs temp_dir);;
    let temp_out_zippath := Path.join temp_dir [zip_filename] in
    r ← requests_get url;
    (if Nat.eqb (status_code r) 200
     then Os.write_file temp_out_zippath (raw r)
     else mret ());;
    d ← Os.isdir downloaded_dir;
    (if d : bool then mret () else Os.makedirs downloaded_dir);;
    Os.move temp_out_zippath downloadedpath.

Definition download (bookname : string) : M () :=
  let temp_dir := _get_temp_dir bookname in
  let items := _get_download_items bookname in
  for_each items (download_item bookname temp_dir);;
  try_except_OSError (Os.rmdir temp_dir).

(** [zipfile.ZipFile(path, 'r')]: the members of the archive. *)
Definition ZipFile_read (path : string) : M (list (string * string)) :=
  c ← Os.read_file path;
  match zip_decode c with
  | Some members => mret members
  | None => raise (BadZipFile path)
  end.

(** [ZipFile.extractall] on one member. The library normalises the target
    path, which leaves it as it is for a normalised directory. *)
Definition extract_member (path : string) (member : string * string)
  : M () :=
  let '(filename, content) := member in
  let arcname := extract_name filename in
  let is_dir := Path.endswith_sep filename in
  if String.eqb arcname "" then
    if is_dir then mret () else raise ValueError
  else
    let targetpath := Path.join path [arcname] in
    let upperdirs := Os.dirname targetpath in
    e ← Os.exists_ upperdirs;
    (if negb (String.eqb upperdirs "") && negb e
     then Os.makedirs upperdirs else mret ());;
    if is_dir then
      d ← Os.isdir targetpath;
      if d : bool then mret () else Os.mkdir targetpath
    else Os.write_file targetpath content.

Definition unpack_item (bookname unpack_dir : string) (item : DownloadItem)
  : M () :=
  let downloaded_path :=
    Path.join (_get_downloaded_dir bookname) [zip_filename item] in
  members ← ZipFile_read downloaded_path;
  for_each members (extract_member unpack_dir).

Definition unpack (bookname : string) : M () :=
  let unpack_dir := _get_unpack_dir bookname in
  d ← Os.isdir unpack_dir;
  (if d : bool then Os.rmtree unpack_dir else mret ());;
  Os.makedirs unpack_dir;;
  let items := _get_download_items bookname in
  for_each items (unpack_item bookname unpack_dir).

Definition _parse_unpacked_metadata (bookname : string)
  : M (gmap string string) :=
  let unpacked_dir := _get_unpack_dir bookname in
  c ← Os.read_file (Path.join unpacked_dir ["Metadata"]);
  lift (metadata_lines (Py.lines c) ∅).

Definition _parse_unpacked_rune_chapters (bookname : string)
  : M (list RuneChapter.t) :=
  let unpacked_dir := _get_unpack_dir bookname in
  c ← Os.read_file (Path.join unpacked_dir ["Articles.lst"]);
  lift (parse_lines (Py.lines c) 0 []).

(** The path of a page file. *)
Definition page_path (bookname : string) (index : Z) : string :=
  Path.join (_get_unpack_dir bookname)
    ["Pages"; Py.format_04d index +:+ ".txt"].

(** The generator [_unpacked_range_reader], as the lines it yields and the
    exception that ends it, if any. It only reads. *)
Fixpoint read_pages (w : world) (bookname : string) (indexes : list Z)
  : list string * option exn :=
  match indexes with
  | [] => ([], None)
  | index :: rest =>
      match Os.read_file (page_path bookname index) w with
      | (Ok c, _) =>
          let '(ls, e) := read_pages w bookname rest in
          ((Py.strip <$> Py.lines c) ++ ls, e)
      | (Raise e, _) => ([], Some e)
      end
  end.

Fixpoint _unpacked_range_reader (w : world) (bookname : string)
    (ranges : list (list Z)) : list string * option exn :=
  match ranges with
  | [] => ([], None)
  | r :: rest =>
      match r !! 0%nat, r !! 1%nat with
      | Some r0, Some r1 =>
          match read_pages w bookname (seqZ r0 (r1 + 1 - r0)) with
          | (ls, None) =>
              let '(ls', e) := _unpacked_range_reader w bookname rest in
              (ls ++ ls', e)
          | (ls, Some e) => (ls, Some e)
          end
      | _, _ => ([], Some IndexError)
      end
  end.

(** The lines the reader yields in a world, for use in [M]. *)
Definition range_reader (bookname : string) (ranges : list (list Z))
  : M (list string * option exn) := λ w,
  (Ok (_unpacked_range_reader w bookname ranges), w).

(** The body of the loop of [build_epub] over the chapters, up to
    [add_chapter]: the chapter file is opened, written and closed. When the
    reader raises, the file keeps what was written before. *)
Definition write_chapter (bookname build_dir : string)
    (rune_chapter : RuneChapter.t) : M EPubChapter.t :=
  let epub_chapter :=
    EPubChapter.Build (RuneChapter.type rune_chapter)
      (RuneChapter.index rune_chapter) (RuneChapter.title rune_chapter) in
  let path :=
    Path.join build_dir ["OEBPS"; EPubChapter.filename epub_chapter] in
  Os.write_file path xhtml_head;;
  yielded ← range_reader bookname (RuneChapter.ranges rune_chapter);
  let st := body_loop (RuneChapter.type rune_chapter) yielded.1 in
  Os.append_file path (out_stream st);;
  match yielded.2 with
  | Some e => raise e
  | None =>
      Os.append_file path (buff st +:+ xhtml_foot);;
      mret epub_chapter
  end.

(** The loop of [build_epub] over the chapters: the writer as the loop
    leaves it, and how the loop ended. *)
Fixpoint write_chapters (bookname : string) (epub_writer : EpubWriter.t)
    (rune_chapters : list RuneChapter.t)
  : world → (EpubWriter.t * result ()) * world :=
  match rune_chapters with
  | [] => λ w, ((epub_writer, Ok ()), w)
  | rune_chapter :: rest => λ w,
      match
        write_chapter bookname (EpubWriter.build_dir epub_writer)
          rune_chapter w
      with
      | (Ok epub_chapter, w') =>
          write_chapters bookname
            (EpubWriter.add_chapter epub_writer epub_chapter) rest w'
      | (Raise e, w') => ((epub_writer, Raise e), w')
      end
  end.

(** The block under [with EpubWriter(...) as epub_writer]. *)
Definition with_block (bookname : string) (epub_writer : EpubWriter.t)
  : world → (EpubWriter.t * result ()) * world := λ w,
  match _parse_unpacked_rune_chapters bookname w with
  | (Ok rune_chapters, w') =>
      write_chapters bookname epub_writer rune_chapters w'
  | (Raise e, w') => ((epub_writer, Raise e), w')
  end.

(** The [with] statement: [__exit__] runs however the block ends, and an
    exception of the block goes on after it. *)
Definition with_writer (epub_writer : EpubWriter.t)
    (block : world → (EpubWriter.t * result ()) * world) : M () := λ w,
  let '((epub_writer, r), w1) := block w in
  match EpubWriter.__exit__ epub_writer w1 with
  | (Ok _, w2) => (r, w2)
  | (Raise e, w2) => (Raise e, w2)
  end.

(** [metadata[key]] *)
Definition getitem (metadata : gmap string string) (key : string)
  : M string :=
  match metadata !! key with
  | Some v => mret v
  | None => raise (KeyError key)
  end.

(** The statements of [build_epub] up to the creation of the writer. *)
Definition open_writer (bookname author : string) : M EpubWriter.t :=
  let build_dir := _get_build_dir bookname in
  d ← Os.isdir build_dir;
  (if d : bool then Os.rmtree build_dir else mret ());;
  Os.makedirs build_dir;;
  metadata ← _parse_unpacked_metadata bookname;
  title ← getitem metadata "TITLE";
  EpubWriter.__init__ build_dir author title.

Definition build_epub (bookname author : string) : M () :=
  epub_writer ← open_writer bookname author;
  with_writer epub_writer (with_block bookname epub_writer).

(** [stream.write(file_path, arcname)] on the archive being written: the
    member it adds. *)
Definition ZipFile_write (file_path arcname : string) : M (string * string) :=
  c ← Os.read_file file_path;
  mret (zip_arcname arcname, c).

(** The path of the archive that [zip_epub] writes. *)
Definition zip_outfile (bookname : string) : string :=
  Path.join "." [bookname +:+ ".epub"].

(** The members that [zip_epub] adds, in the order of the walk. *)
Definition zip_members (bookname : string) : M (list (string * string)) :=
  let build_dir := _get_build_dir bookname in
  let build_dir_str_len := String.length build_dir in
  paths ← Os.walk build_dir;
  mapM (λ file_path,
          ZipFile_write file_path (drop_chars build_dir_str_len file_path))
       paths.

(** Opening the archive for writing creates the file; closing it writes the
    members. *)
Definition zip_epub (bookname : string) : M () :=
  let epub_dir := "." in
  d ← Os.isdir epub_dir;
  (if d : bool then mret () else Os.makedirs epub_dir);;
  Os.write_file (zip_outfile bookname) "";;
  members ← zip_members bookname;
  Os.write_file (zip_outfile bookname) (zip_encode members).

(** A call of a stage in [main]. *)
Definition run_stage (s : stage) (m : M ()) : M () :=
  emit (Call s);; m;; emit (Return s).

(** [args.name] *)
Definition getattr (args : gmap string string) (name : string) : M string :=
  match args !! name with
  | Some v => mret v
  | None => raise (AttributeError name)
  end.

Definition main `{ArgParse} (argv : list string) : M () :=
  match parse_args parser argv with
  | None => raise SystemExit
  | Some args =>
      bookname ← getattr args "id";
      author ← getattr args "author";
      run_stage Download (download bookname);;
      run_stage Unpack (unpack bookname);;
      run_stage BuildEpub (build_epub bookname author);;
      run_stage ZipEpub (zip_epub bookname)
  end.

End Runepub.

(** ** The properties' own vocabulary *)

(** The part of a text before the first occurrence of a character, and the
    part after it. *)
Fixpoint before (c : ascii) (s : string) : string :=
  match s with
  | "" => ""
  | String a r => if Ascii.eqb a c then "" else String a (before c r)
  end.

Fixpoint after (c : ascii) (s : string) : string :=
  match s with
  | "" => ""
  | String a r => if Ascii.eqb a c then r else after c r
  end.

(** Whether every character of a text passes a test. *)
Fixpoint sall (f : ascii → bool) (s : string) : bool :=
  match s with
  | "" => true
  | String a r => f a && sall f r
  end.

(** White space only; white space at the start; white space at the end. *)
Definition blank (s : string) : bool := sall Py.isspace s.

Definition starts_space (s : string) : bool :=
  match s with
  | "" => false
  | String a _ => Py.isspace a
  end.

Fixpoint ends_space (s : string) : bool :=
  match s with
  | "" => false
  | String a "" => Py.isspace a
  | String _ r => ends_space r
  end.

(** A decimal digit. *)
Definition is_digit (c : ascii) : bool :=
  let n := N_of_ascii c in ((48 <=? n) && (n <=? 57))%N.

(** The three fields of a line with two bars or more: what stands before
    the first bar, between the first two, and after the second, each without
    the white space around it. *)
Definition fields (l : string) : string * string * string :=
  (Py.strip (before "|" l),
   Py.strip (before "|" (after "|" l)),
   Py.strip (after "|" (after "|" l))).

(** Whether a result is an exception. *)
Definition raises {A} (r : result A) : bool :=
  match r with
  | Ok _ => false
  | Raise _ => true
  end.

(** A range expression with a token of which some part between dashes (the
    whole token when it has no dash) is not an integer. *)
Definition bad_range (rangeexpr : string) : bool :=
  existsb (λ token,
             existsb (λ x, bool_decide (Py.int x = None))
               (Py.split "-" token))
    (Py.split_ws rangeexpr).

(** A line of the index file at which the parser raises: after the comment
    and the white space around are gone, it has exactly one bar, or a type
    field that is unknown, or a type field that starts a chapter and a bad
    range expression. *)
Definition bad_line (line : string) : bool :=
  let l := Py.strip (before "#" line) in
  match Py.count "|" l with
  | 0%nat => false
  | 1%nat => true
  | _ =>
      let '(type, _, rangeexpr) := fields l in
      if String.eqb type "" || String.eqb type "index"
      then bad_range rangeexpr
      else negb (String.eqb type "-")
  end.

(** What the lines of an index file contribute, in the order of the file:
    the chapters that the lines yield, without their indices. *)
Definition chapter_lines (lines : list string)
  : list (ChapterType * string * list (list Z)) :=
  omap (λ line,
          match parse_line line with
          | Ok (NewChapter type title ranges) => Some (type, title, ranges)
          | _ => None
          end) lines.

(** A token of a range expression: two numbers with a dash between them, or
    one number; its text, and the interval it stands for. *)
Inductive range_token : Type :=
  | Span (a b : N)
  | Page (n : N).

Definition token_text (t : range_token) : string :=
  match t with
  | Span a b => Py.decimal a +:+ "-" +:+ Py.decimal b
  | Page n => Py.decimal n
  end.

Definition token_interval (t : range_token) : list Z :=
  match t with
  | Span a b => [Z.of_N a; Z.of_N b]
  | Page n => [Z.of_N n; Z.of_N n]
  end.

(** A text without its angle brackets. *)
Fixpoint without_angles (s : string) : string :=
  match s with
  | "" => ""
  | String a r =>
      if Ascii.eqb a "<" || Ascii.eqb a ">" then without_angles r
      else String a (without_angles r)
  end.

Definition has_open (line : string) : bool := Py.contains "<chapter" line.
Definition has_close (line : string) : bool := Py.contains "</chapter>" line.
Definition marker_free (line : string) : bool :=
  negb (has_open line) && negb (has_close line).

(** The lines before the first one that closes the chapter. *)
Fixpoint before_close (ls : list string) : list string :=
  match ls with
  | [] => []
  | l :: rest => if has_close l then [] else l :: before_close rest
  end.

(** The lines after the first one that opens a chapter, if there is one. *)
Fixpoint after_open (ls : list string) : option (list string) :=
  match ls with
  | [] => None
  | l :: rest => if has_open l then Some rest else after_open rest
  end.

(** Lines written one after the other, each followed by a line feed. *)
Fixpoint written (ls : list string) : string :=
  match ls with
  | [] => ""
  | l :: rest => l +:+ Py.nl +:+ written rest
  end.

(** The body of a chapter as the lines it is made of. *)
Definition body_of (type : ChapterType) (ls : list string) : string :=
  match type with
  | INDEX => written ls
  | REGULAR =>
      match after_open ls with
      | Some rest => written (List.filter marker_free (before_close rest))
      | None => written (List.filter marker_free ls)
      end
  end.

(** The directory of a book below [~/.runepub], with its final separator:
    every path the program builds for its own use starts with it. *)
Definition book_root `{Host} (bookname : string) : string :=
  Path.join RUNEDIR [bookname; ""].

(** Whether a path lies in the directory of a book. *)
Definition private `{Host} (bookname p : string) : bool :=
  Py.startswith (book_root bookname) p.

(** Whether a run requested nothing from the network. *)
Definition no_request (events : list event) : bool :=
  forallb (λ e, match e with HttpGet _ => false | _ => true end) events.

(** The calls and returns of the stages among the events of a run. *)
Definition stage_events (events : list event) : list event :=
  List.filter (λ e, match e with HttpGet _ => false | _ => true end) events.

(** The events of a run in which each stage is called once and returns, in
    the order of the pipeline. *)
Definition pipeline : list event :=
  [Call Download; Return Download; Call Unpack; Return Unpack;
   Call BuildEpub; Return BuildEpub; Call ZipEpub; Return ZipEpub].

(** The lines of a page as the reader yields them, when the page exists. *)
Definition page_lines `{Host} (w : world) (bookname : string) (index : Z)
  : list string :=
  match files w !! page_path bookname index with
  | Some c => Py.strip <$> Py.lines c
  | None => []
  end.

(** A directory name that is not empty and does not end in a separator. *)
Definition plain (d : string) : Prop :=
  d ≠ "" ∧ Path.endswith_sep d = false.

(** The last character of a text. *)
Fixpoint slast (s : string) : option ascii :=
  match s with
  | "" => None
  | String c "" => Some c
  | String _ r => slast r
  end.

(** ** What a computation leaves as it is *)

(** A computation keeps a relation between the world it starts in and the
    world it ends in, however it ends. *)
Definition keeps (R : relation world) {A} (m : M A) : Prop :=
  ∀ w r w', m w = (r, w') → R w w'.

(** The writer that [build_epub] creates for a build directory, with any
    chapters added. *)
Definition writer_of (d : string) (self : EpubWriter.t) : Prop :=
  EpubWriter.book_ncx self = Some (Path.join d ["OEBPS"; "book.ncx"])
  ∧ EpubWriter.book_opf self = Some (Path.join d ["OEBPS"; "book.opf"])
  ∧ EpubWriter.build_dir self = d.

(** The same for the block of a [with] statement, with the writer it
    leaves. *)
Definition keeps_block (R : relation world) (d : string)
    (block : world → (EpubWriter.t * result ()) * world) : Prop :=
  ∀ w x w', block w = (x, w') → R w w' ∧ writer_of d x.1.

(** The files outside a set of paths are the same in both worlds. *)
Definition touches (S : string → Prop) : relation world :=
  λ w w', ∀ p, ¬ S p → files w' !! p = files w !! p.

(** No file is lost from one world to the other. *)
Definition grows : relation world :=
  λ w w', ∀ p, is_Some (files w !! p) → is_Some (files w' !! p).

(** No directory is lost from one world to the other. *)
Definition dirs_grow : relation world :=
  λ w w', dirs w ⊆ dirs w'.

(** The second world has the events of the first, then requests only. *)
Definition requests_only : relation world :=
  λ w w', ∃ events, log w' = log w ++ events ∧ stage_events events = [].

(** The second world has the events of the first and no other. *)
Definition silent : relation world :=
  λ w w', log w' = log w.

(** The server is the same in both worlds. *)
Definition same_net : relation world :=
  λ w w', net w' = net w.

(** Where [download] puts the archive of an item, where it first writes
    it, and where [shutil.move] puts it when the first is a directory. *)
Definition downloadedpath `{Host} (bookname : string) (item : DownloadItem)
  : string :=
  Path.join (_get_downloaded_dir bookname) [zip_filename item].

Definition temp_out_zippath `{Host} (bookname : string) (item : DownloadItem)
  : string :=
  Path.join (_get_temp_dir bookname) [zip_filename item].

Definition moved_into `{Host} (bookname : string) (item : DownloadItem)
  : string :=
  Path.join (downloadedpath bookname item)
    [Os.basename (temp_out_zippath bookname item)].

(** The archive of an item is in place: it is a file, or a directory that
    holds it. *)
Definition downloaded `{Host} (bookname : string) (item : DownloadItem)
    (w : world) : Prop :=
  Os.is_file w (downloadedpath bookname item) = true
  ∨ (Os.is_dir w (downloadedpath bookname item) = true
     ∧ Os.is_file w (moved_into bookname item)
       || Os.is_dir w (moved_into bookname item) = true).

(** From one world to the other at most one file has changed, no file and
    no directory has gone, and the server is the same. *)
Definition fetching (p : string) : relation world :=
  λ w w', touches (λ q, q = p) w w' ∧ grows w w' ∧ dirs_grow w w'.

(** ** Sample hosts *)

(** A host whose archives are two: a book of two chapters, and a book
    whose index file has a line of unknown type. *)
Definition sample_host : Host := {|
  home := "/home/u";
  zip_decode s :=
    if String.eqb s "PK-saga" then
      Some [("Metadata", "TITLE: Saga" +:+ Py.nl +:+ "LANGUAGE: sv" +:+ Py.nl);
            ("Articles.lst",
             "# index" +:+ Py.nl +:+ "|One|1-2" +:+ Py.nl
             +:+ "-|Sub|2" +:+ Py.nl +:+ "index|Register|3" +:+ Py.nl);
            ("Pages/0001.txt",
             "title" +:+ Py.nl +:+ "<chapter name=One>" +:+ Py.nl
             +:+ " first " +:+ Py.nl);
            ("Pages/0002.txt",
             "a < b" +:+ Py.nl +:+ "</chapter>" +:+ Py.nl +:+ "next" +:+ Py.nl);
            ("Pages/0003.txt", "One, 1" +:+ Py.nl)]
    else if String.eqb s "PK-bad" then
      Some [("Metadata", "TITLE: Bad" +:+ Py.nl);
            ("Articles.lst", "part|One|1" +:+ Py.nl)]
    else None;
  zip_encode members := Py.join ";" (members.*1)
|}.

(** A server that has the two books. *)
Definition sample_net (url : string) : option response :=
  if String.eqb url "http://runeberg.org/download.pl?mode=txtzip&work=saga"
  then Some (Response 200 "PK-saga")
  else if String.eqb url "http://runeberg.org/download.pl?mode=txtzip&work=bad"
  then Some (Response 200 "PK-bad")
  else Some (Response 404 "").

(** A host on which the program has not run yet. *)
Definition fresh_world : world :=
  World ∅ {["."; "/"; "/home"; "/home/u"]} sample_net [].

(** A host with two pages of the book [saga] unpacked. *)
Definition pages_world : world :=
  World {[ "/home/u/.runepub/saga/unpacked/Pages/0001.txt"
             := " first " +:+ Py.nl +:+ "second" +:+ Py.nl;
           "/home/u/.runepub/saga/unpacked/Pages/0002.txt"
             := "third" +:+ Py.nl ]}
    {["."; "/"]} sample_net [].

(** A command-line parser that accepts flags each followed by its value. *)
Fixpoint flag_values (spec : list argument) (argv : list string)
    (args : gmap string string) : option (gmap string string) :=
  match argv with
  | [] => Some args
  | flag :: value :: rest =>
      match List.find (λ a, bool_decide (flag ∈ flags a)) spec with
      | Some a => flag_values spec rest (<[dest a := value]> args)
      | None => None
      end
  | _ => None
  end.

Definition sample_parse_args (spec : list argument) (argv : list string)
  : option (gmap string string) :=
  match flag_values spec argv ∅ with
  | Some args =>
      if forallb (λ a, implb (required a)
                         (bool_decide (is_Some (args !! dest a)))) spec
      then Some args else None
  | None => None
  end.

#[export] Program Instance sample_argparse : ArgParse := {|
  parse_args := sample_parse_args
|}.
Next Obligation.
  intros spec argv args a. unfold sample_parse_args.
  destruct (flag_values spec argv ∅) as [args'|]; [|done].
  destruct (forallb _ spec) eqn:Hall; [|done]. intros [= <-] Ha Hr.
  rewrite forallb_forall in Hall.
  specialize (Hall a (proj1 (list_elem_of_In _ _) Ha)).
  rewrite Hr in Hall. simpl in Hall. by apply bool_decide_eq_true in Hall.
Qed.

(** * Properties *)

Example split_hash : Py.split "#" "a|b#c#d" = ["a|b"; "c"; "d"].
Proof. reflexivity. Qed.
Example splitn_bar : Py.splitn "|" 2 "|T|1-2|x" = [""; "T"; "1-2|x"].
Proof. reflexivity. Qed.
Example split_ws_ex : Py.split_ws "  1-2   7 " = ["1-2"; "7"].
Proof. reflexivity. Qed.
Example int_ex : Py.int " +1_0 " = Some 10.
Proof. reflexivity. Qed.
Example int_bad : Py.int "1__0" = None.
Proof. reflexivity. Qed.
Example format_ex : Py.format_04d 7 = "0007" /\ Py.format_04d (-1) = "-001" /\ Py.format_04d 12345 = "12345".
Proof. repeat split. Qed.
Example lines_ex : Py.lines ("a" +:+ String Py.cr Py.nl +:+ "b" +:+ String Py.cr "c") = ["a" +:+ Py.nl; "b" +:+ Py.nl; "c"].
Proof. reflexivity. Qed.
Example strip_ex : Py.strip "  a b  " = "a b".
Proof. reflexivity. Qed.

Example parse_lines_ex :
  parse_lines ["# comment"; "|Preface|1-3 5"; "-|Sub|2"; "index|Register|10"; ""] 0 [] =
  Ok [RuneChapter.Build REGULAR 0 "Preface" [[1; 3]; [5; 5]];
      RuneChapter.Build INDEX 1 "Register" [[10; 10]]].
Proof. reflexivity. Qed.
Example parse_line_one_bar : parse_line "|Preface" = Raise ValueError.
Proof. reflexivity. Qed.

(** ** Strings *)

#[local] Arguments String.append !_ _ / : simpl nomatch.

Lemma sapp_nil_r (s : string) : s +:+ "" = s.
Proof. induction s as [|c s IH]; simpl; [done | by rewrite IH]. Qed.

Lemma sapp_assoc (s t u : string) : (s +:+ t) +:+ u = s +:+ t +:+ u.
Proof. induction s as [|c s IH]; simpl; [done | by rewrite IH]. Qed.

Lemma sapp_cons (c : ascii) (s t : string) :
  String c s +:+ t = String c (s +:+ t).
Proof. done. Qed.

Lemma slength_app (s t : string) :
  String.length (s +:+ t) = (String.length s + String.length t)%nat.
Proof. induction s as [|c s IH]; simpl; [done | by rewrite IH]. Qed.

Lemma sall_app (f : ascii → bool) (s t : string) :
  sall f (s +:+ t) = sall f s && sall f t.
Proof.
  induction s as [|c s IH]; simpl; [done|]. by rewrite IH, andb_assoc.
Qed.

Lemma sall_impl (f g : ascii → bool) (s : string) :
  (∀ c, f c = true → g c = true) → sall f s = true → sall g s = true.
Proof.
  intros Hfg. induction s as [|c s IH]; simpl; [done|].
  intros [Hc Hs]%andb_prop. by rewrite (Hfg _ Hc), IH.
Qed.

Lemma lstrip_spec (s : string) :
  ∃ l, s = l +:+ Py.lstrip s ∧ blank l = true
       ∧ starts_space (Py.lstrip s) = false.
Proof.
  induction s as [|c s (l & Hl & Hb & Hs)]; simpl.
  { by exists "". }
  destruct (Py.isspace c) eqn:Hc.
  - exists (String c l). simpl. rewrite <- Hl. unfold blank in *. simpl.
    by rewrite Hc, Hb.
  - exists "". by simpl.
Qed.

Lemma rstrip_spec (s : string) :
  ∃ r, s = Py.rstrip s +:+ r ∧ blank r = true.
Proof.
  induction s as [|c s (r & Hr & Hb)]; simpl.
  { by exists "". }
  destruct (Py.rstrip s) as [|a x] eqn:Hrs.
  - simpl in Hr. subst r. destruct (Py.isspace c) eqn:Hc.
    + exists (String c s). unfold blank in *. simpl. by rewrite Hc, Hb.
    + by exists s.
  - exists r. by rewrite sapp_cons, <- Hr.
Qed.

Lemma rstrip_ends (s : string) : ends_space (Py.rstrip s) = false.
Proof.
  induction s as [|c s IH]; simpl; [done|].
  destruct (Py.rstrip s) as [|a x] eqn:Hrs; [|done].
  by destruct (Py.isspace c) eqn:Hc; simpl.
Qed.

Lemma rstrip_starts (s : string) :
  starts_space s = false → starts_space (Py.rstrip s) = false.
Proof.
  destruct s as [|c s]; simpl; [done|]. intros Hc.
  destruct (Py.rstrip s); by rewrite ?Hc.
Qed.

(** [strip] takes white space away from both ends, and all of it. *)
Lemma strip_spec (s : string) :
  ∃ l r, s = l +:+ Py.strip s +:+ r
         ∧ blank l = true ∧ blank r = true
         ∧ starts_space (Py.strip s) = false
         ∧ ends_space (Py.strip s) = false.
Proof.
  unfold Py.strip.
  destruct (lstrip_spec s) as (l & Hl & Hbl & Hs).
  destruct (rstrip_spec (Py.lstrip s)) as (r & Hr & Hbr).
  exists l, r. split_and!; [by rewrite <- Hr | done | done | |].
  - by apply rstrip_starts.
  - apply rstrip_ends.
Qed.

Lemma lstrip_id (s : string) : starts_space s = false → Py.lstrip s = s.
Proof. destruct s as [|c s]; simpl; [done|]. by intros ->. Qed.

Lemma rstrip_id (s : string) : ends_space s = false → Py.rstrip s = s.
Proof.
  induction s as [|c s IH]; [done|]. simpl.
  destruct s as [|a x]; simpl in *; [by intros ->|].
  intros He. by rewrite (IH He).
Qed.

Lemma strip_id (s : string) :
  starts_space s = false → ends_space s = false → Py.strip s = s.
Proof. intros Hs He. unfold Py.strip. by rewrite lstrip_id, rstrip_id. Qed.

Lemma strip_idemp (s : string) : Py.strip (Py.strip s) = Py.strip s.
Proof.
  destruct (strip_spec s) as (l & r & _ & _ & _ & Hs & He).
  by apply strip_id.
Qed.

Lemma sall_starts (f : ascii → bool) (s : string) :
  (∀ c, f c = true → Py.isspace c = false) →
  sall f s = true → starts_space s = false.
Proof.
  intros Hf. destruct s as [|c s]; simpl; [done|].
  intros [Hc _]%andb_prop. by apply Hf.
Qed.

Lemma sall_ends (f : ascii → bool) (s : string) :
  (∀ c, f c = true → Py.isspace c = false) →
  sall f s = true → ends_space s = false.
Proof.
  intros Hf. induction s as [|c s IH]; simpl; [done|].
  intros [Hc Hs]%andb_prop. destruct s; [by apply Hf | by apply IH].
Qed.

(** *** Splitting *)

Lemma contains_char (c : ascii) (s : string) :
  Py.contains (String c "") s = negb (Nat.eqb (Py.count c s) 0).
Proof.
  induction s as [|a s IH]; simpl; [done|].
  rewrite IH. rewrite (Ascii.eqb_sym c a).
  destruct (Ascii.eqb a c); simpl; [done|]. by destruct (Py.count c s).
Qed.

Lemma count_zero_sall (c : ascii) (s : string) :
  Py.count c s = 0%nat ↔ sall (λ a, negb (Ascii.eqb a c)) s = true.
Proof.
  induction s as [|a s IH]; simpl; [done|].
  destruct (Ascii.eqb a c); simpl; [done | apply IH].
Qed.

Lemma count_app (c : ascii) (s t : string) :
  Py.count c (s +:+ t) = (Py.count c s + Py.count c t)%nat.
Proof.
  induction s as [|a s IH]; simpl; [done|]. rewrite IH. lia.
Qed.

Lemma split_hd (c : ascii) (s : string) :
  hd "" (Py.split c s) = before c s.
Proof.
  induction s as [|a s IH]; simpl; [done|].
  destruct (Ascii.eqb a c); [done|].
  rewrite <- IH. by destruct (Py.split c s).
Qed.

Lemma before_after (c : ascii) (s : string) :
  Py.count c s ≠ 0%nat → s = before c s +:+ String c (after c s).
Proof.
  induction s as [|a s IH]; simpl; [done|].
  destruct (Ascii.eqb_spec a c) as [->|Hne]; simpl; [done|].
  intros Hc. by rewrite <- IH.
Qed.

Lemma count_before (c : ascii) (s : string) : Py.count c (before c s) = 0%nat.
Proof.
  induction s as [|a s IH]; simpl; [done|].
  destruct (Ascii.eqb a c) eqn:Hac; simpl; [done|]. by rewrite Hac.
Qed.

Lemma count_after (c : ascii) (s : string) :
  Py.count c (after c s) = pred (Py.count c s).
Proof.
  induction s as [|a s IH]; simpl; [done|].
  by destruct (Ascii.eqb a c).
Qed.

Lemma splitn_0 (c : ascii) (n : nat) (s : string) :
  Py.count c s = 0%nat → Py.splitn c n s = [s].
Proof.
  destruct n as [|n]; [by destruct s|].
  induction s as [|a s IH]; simpl; [done|].
  destruct (Ascii.eqb a c); simpl; [done|]. intros Hc. by rewrite IH.
Qed.

Lemma splitn_S (c : ascii) (n : nat) (s : string) :
  Py.count c s ≠ 0%nat →
  Py.splitn c (S n) s = before c s :: Py.splitn c n (after c s).
Proof.
  induction s as [|a s IH]; simpl; [done|].
  destruct (Ascii.eqb a c); simpl; [done|]. intros Hc. by rewrite IH.
Qed.

Lemma split_0 (c : ascii) (s : string) :
  Py.count c s = 0%nat → Py.split c s = [s].
Proof.
  induction s as [|a s IH]; simpl; [done|].
  destruct (Ascii.eqb a c); simpl; [done|]. intros Hc. by rewrite IH.
Qed.

Lemma split_S (c : ascii) (s : string) :
  Py.count c s ≠ 0%nat →
  Py.split c s = before c s :: Py.split c (after c s).
Proof.
  induction s as [|a s IH]; simpl; [done|].
  destruct (Ascii.eqb a c); simpl; [done|]. intros Hc. by rewrite IH.
Qed.

Lemma before_app (c : ascii) (a b : string) :
  Py.count c a = 0%nat → before c (a +:+ String c b) = a.
Proof.
  induction a as [|x a IH]; simpl; [by rewrite Ascii.eqb_refl|].
  destruct (Ascii.eqb x c); simpl; [done|]. intros Hc. by rewrite IH.
Qed.

Lemma after_app (c : ascii) (a b : string) :
  Py.count c a = 0%nat → after c (a +:+ String c b) = b.
Proof.
  induction a as [|x a IH]; simpl; [by rewrite Ascii.eqb_refl|].
  destruct (Ascii.eqb x c); simpl; [done|]. intros Hc. by rewrite IH.
Qed.

Lemma split_ws_single (t : string) :
  t ≠ "" → sall (λ c, negb (Py.isspace c)) t = true → Py.split_ws t = [t].
Proof.
  induction t as [|c t IH]; [done|]. intros _. simpl.
  intros [Hc Ht]%andb_prop. apply negb_true_iff in Hc. rewrite Hc.
  destruct t as [|d t']; [done|].
  assert (Py.isspace d = false) as Hd.
  { simpl in Ht. apply andb_prop in Ht as [Hd _]. by apply negb_true_iff. }
  rewrite Hd. by rewrite IH.
Qed.

Lemma split_ws_cons (t rest : string) :
  t ≠ "" → sall (λ c, negb (Py.isspace c)) t = true →
  Py.split_ws (t +:+ " " +:+ rest) = t :: Py.split_ws rest.
Proof.
  induction t as [|c t IH]; [done|]. intros _. rewrite sapp_cons.
  intros [Hc Ht]%andb_prop. apply negb_true_iff in Hc.
  change (Py.split_ws (String c (t +:+ " " +:+ rest)))
    with (if Py.isspace c then Py.split_ws (t +:+ " " +:+ rest)
          else match t +:+ " " +:+ rest with
               | "" => [String c ""]
               | String d _ =>
                   if Py.isspace d
                   then String c "" :: Py.split_ws (t +:+ " " +:+ rest)
                   else Py.cons_hd c (Py.split_ws (t +:+ " " +:+ rest))
               end).
  rewrite Hc. destruct t as [|d t']; [done|].
  assert (Py.isspace d = false) as Hd.
  { simpl in Ht. apply andb_prop in Ht as [Hd _]. by apply negb_true_iff. }
  rewrite sapp_cons, Hd. by rewrite <- sapp_cons, IH.
Qed.

Lemma split_ws_join (ts : list string) :
  Forall (λ t, t ≠ "" ∧ sall (λ c, negb (Py.isspace c)) t = true) ts →
  Py.split_ws (Py.join " " ts) = ts.
Proof.
  induction 1 as [|t ts [Hne Ht] Hts IH]; [done|].
  destruct ts as [|u ts]; [by apply split_ws_single|].
  change (Py.join " " (t :: u :: ts)) with (t +:+ " " +:+ Py.join " " (u :: ts)).
  by rewrite split_ws_cons, IH.
Qed.

(** *** Numbers *)

Lemma digit_not_space (c : ascii) : is_digit c = true → Py.isspace c = false.
Proof. by destruct c as [[] [] [] [] [] [] [] []]. Qed.

Lemma digit_not_dash (c : ascii) : is_digit c = true → Ascii.eqb c "-" = false.
Proof. by destruct c as [[] [] [] [] [] [] [] []]. Qed.

Lemma digit_not_underscore (c : ascii) :
  is_digit c = true → Ascii.eqb c "_" = false.
Proof. by destruct c as [[] [] [] [] [] [] [] []]. Qed.

Lemma string_of_uint_digits (d : Decimal.uint) :
  sall is_digit (NilEmpty.string_of_uint d) = true.
Proof. induction d; done. Qed.

Lemma decimal_eq (n : N) :
  Py.decimal n = NilEmpty.string_of_uint (N.to_uint n)
  ∧ Py.decimal n ≠ "".
Proof.
  unfold Py.decimal, NilZero.string_of_uint.
  destruct n as [|p]; [done|]. simpl.
  pose proof (DecimalPos.Unsigned.to_uint_nonnil p) as Hp.
  by destruct (Pos.to_uint p).
Qed.

Lemma decimal_digits (n : N) : sall is_digit (Py.decimal n) = true.
Proof. rewrite (proj1 (decimal_eq n)). apply string_of_uint_digits. Qed.

Lemma drop_underscores_digits (b : bool) (s : string) :
  sall is_digit s = true → s ≠ "" ∨ b = true →
  Py.drop_underscores b s = Some s.
Proof.
  revert b. induction s as [|c s IH]; intros b Hs Hb; simpl.
  { by destruct Hb as [? | ->]. }
  simpl in Hs. apply andb_prop in Hs as [Hc Hs].
  rewrite (digit_not_underscore _ Hc), IH; auto.
Qed.

Lemma int_digits (s : string) (d : Decimal.uint) :
  sall is_digit s = true → s ≠ "" →
  NilEmpty.uint_of_string s = Some d →
  Py.int s = Some (Z.of_N (N.of_uint d)).
Proof.
  intros Hs Hne Hd. unfold Py.int.
  rewrite strip_id by (by eapply sall_starts || eapply sall_ends;
                       eauto using digit_not_space).
  assert (match s with
          | String "+" r => (false, r)
          | String "-" r => (true, r)
          | _ => (false, s)
          end = (false, s)) as ->.
  { destruct s as [|c r]; [done|]. simpl in Hs.
    apply andb_prop in Hs as [Hc _].
    by destruct c as [[] [] [] [] [] [] [] []]. }
  rewrite drop_underscores_digits by auto. simpl. by rewrite Hd.
Qed.

(** [int(str(n)) = n] *)
Lemma int_decimal (n : N) : Py.int (Py.decimal n) = Some (Z.of_N n).
Proof.
  destruct (decimal_eq n) as [Heq Hne].
  erewrite int_digits; [| apply decimal_digits | done |].
  - by rewrite DecimalN.Unsigned.of_to.
  - rewrite Heq. apply NilEmpty.usu.
Qed.

(** ** The chapter body *)

Lemma replace_angles (line : string) :
  Py.replace ">" "" (Py.replace "<" "" line) = without_angles line.
Proof.
  induction line as [|c r IH]; [done|]. simpl.
  destruct (Ascii.eqb_spec c "<") as [->|Hlt]; simpl; [done|].
  destruct (Ascii.eqb_spec c ">") as [->|Hgt]; simpl; by rewrite IH.
Qed.

Lemma without_angles_count (line : string) :
  Py.count "<" (without_angles line) = 0%nat
  ∧ Py.count ">" (without_angles line) = 0%nat.
Proof.
  induction line as [|c r [IH1 IH2]]; [done|]. simpl.
  destruct (Ascii.eqb_spec c "<") as [->|Hlt]; simpl; [done|].
  destruct (Ascii.eqb_spec c ">") as [->|Hgt]; simpl; [done|].
  rewrite IH1, IH2.
  destruct (Ascii.eqb_spec c "<"), (Ascii.eqb_spec c ">"); done.
Qed.

Lemma body_loop_normalize (type : ChapterType) (lines : list string) :
  body_loop type lines
  = foldl (scope_step type) (Scope BEFORE "" "") (normalize <$> lines).
Proof.
  unfold body_loop. generalize (Scope BEFORE "" "").
  induction lines as [|l ls IH]; intros st; [done|]. simpl. apply IH.
Qed.

(** C3. A line whose numbers of [<] and [>] differ loses all its angle
    brackets, a line where they agree is left as it is, and this happens
    before anything else in the loop: the rest of the loop body, and so the
    whole loop, sees only the normalised lines. *)
Theorem C3_normalize_first (type : ChapterType) (st : scope)
    (line : string) (lines : list string) :
  normalize line
  = (if decide (Py.count "<" line = Py.count ">" line) then line
     else without_angles line)
  ∧ Py.count "<" (without_angles line) = 0%nat
  ∧ Py.count ">" (without_angles line) = 0%nat
  ∧ body_step type st line = scope_step type st (normalize line)
  ∧ chapter_body type lines
    = (let st' := foldl (scope_step type) (Scope BEFORE "" "")
                    (normalize <$> lines) in
       out_stream st' +:+ buff st').
Proof.
  split_and!.
  - unfold normalize. rewrite replace_angles.
    case_decide as Hc.
    + by rewrite Hc, Nat.eqb_refl.
    + apply Nat.eqb_neq in Hc. by rewrite Hc.
  - apply without_angles_count.
  - apply without_angles_count.
  - done.
  - unfold chapter_body. by rewrite body_loop_normalize.
Qed.

Lemma step_after (b o l : string) :
  scope_step REGULAR (Scope AFTER b o) l = Scope AFTER b o.
Proof. done. Qed.

Lemma step_within (b o l : string) :
  scope_step REGULAR (Scope WITHIN b o) l
  = if has_close l then Scope AFTER b o
    else if marker_free l then Scope WITHIN (b +:+ l +:+ Py.nl) o
    else Scope WITHIN b o.
Proof.
  unfold scope_step, marker_free, has_close, has_open. simpl.
  destruct (Py.contains "</chapter>" l); simpl; [done|].
  by destruct (Py.contains "<chapter" l).
Qed.

Lemma step_before (b o l : string) :
  scope_step REGULAR (Scope BEFORE b o) l
  = if has_open l then Scope WITHIN "" o
    else if marker_free l then Scope BEFORE (b +:+ l +:+ Py.nl) o
    else Scope BEFORE b o.
Proof.
  unfold scope_step, marker_free, has_close, has_open. simpl.
  destruct (Py.contains "<chapter" l); simpl; [done|].
  by destruct (Py.contains "</chapter>" l).
Qed.

Lemma step_index (s : ScopeState) (b o l : string) :
  scope_step INDEX (Scope s b o) l = Scope s b (o +:+ l +:+ Py.nl).
Proof. done. Qed.

#[local] Arguments scope_step : simpl never.

Lemma scope_after (b o : string) (ls : list string) :
  foldl (scope_step REGULAR) (Scope AFTER b o) ls = Scope AFTER b o.
Proof. induction ls as [|l ls IH]; [done|]. simpl. by rewrite step_after. Qed.

Lemma scope_within (b o : string) (ls : list string) :
  let st' := foldl (scope_step REGULAR) (Scope WITHIN b o) ls in
  buff st' = b +:+ written (List.filter marker_free (before_close ls))
  ∧ out_stream st' = o.
Proof.
  revert b. induction ls as [|l ls IH]; intros b; simpl.
  { by rewrite sapp_nil_r. }
  rewrite step_within. destruct (has_close l) eqn:Hc.
  - rewrite scope_after. simpl. by rewrite sapp_nil_r.
  - simpl. destruct (marker_free l) eqn:Hm; [|by apply IH].
    destruct (IH (b +:+ l +:+ Py.nl)) as [-> ->].
    simpl. by rewrite !sapp_assoc.
Qed.

Lemma scope_before (b o : string) (ls : list string) :
  let st' := foldl (scope_step REGULAR) (Scope BEFORE b o) ls in
  buff st'
  = match after_open ls with
    | Some rest => written (List.filter marker_free (before_close rest))
    | None => b +:+ written (List.filter marker_free ls)
    end
  ∧ out_stream st' = o.
Proof.
  revert b. induction ls as [|l ls IH]; intros b; simpl.
  { by rewrite sapp_nil_r. }
  rewrite step_before. destruct (has_open l) eqn:Ho.
  - by destruct (scope_within "" o ls) as [-> ->].
  - destruct (marker_free l) eqn:Hm; [|by apply IH].
    destruct (IH (b +:+ l +:+ Py.nl)) as [-> ->].
    simpl. destruct (after_open ls); [done|]. by rewrite !sapp_assoc.
Qed.

Lemma scope_index (s : ScopeState) (b o : string) (ls : list string) :
  let st' := foldl (scope_step INDEX) (Scope s b o) ls in
  buff st' = b ∧ out_stream st' = o +:+ written ls.
Proof.
  revert o. induction ls as [|l ls IH]; intros o; simpl.
  { by rewrite sapp_nil_r. }
  rewrite step_index. destruct (IH (o +:+ l +:+ Py.nl)) as [-> ->].
  simpl. by rewrite !sapp_assoc.
Qed.

(** C9. With the lines taken as the normalisation of C3 leaves them: a
    REGULAR chapter with a line containing [<chapter] has as its body the
    lines after the first such line and before the first later line
    containing [</chapter>], without those that contain either marker; with
    no line containing [<chapter], its body is every line that contains no
    marker; an INDEX chapter has every line as its body. *)
Theorem C9_chapter_body (type : ChapterType) (lines : list string) :
  let ls := normalize <$> lines in
  chapter_body type lines
  = match type with
    | INDEX => written ls
    | REGULAR =>
        match after_open ls with
        | Some rest => written (List.filter marker_free (before_close rest))
        | None => written (List.filter marker_free ls)
        end
    end.
Proof.
  intros ls. unfold chapter_body. rewrite body_loop_normalize. fold ls.
  destruct type.
  - destruct (scope_index BEFORE "" "" ls) as [-> ->]. simpl.
    by rewrite sapp_nil_r.
  - destruct (scope_before "" "" ls) as [-> ->].
    simpl. by destruct (after_open ls).
Qed.

Example chapter_body_ex :
  chapter_body REGULAR
    ["title page"; "<chapter name=I>"; "a < b"; "<i>x</i>"; "</chapter>"; "next"]
  = "a  b" +:+ Py.nl +:+ "<i>x</i>" +:+ Py.nl.
Proof. reflexivity. Qed.

(** ** The index file *)

Lemma digits_no_dash (s : string) :
  sall is_digit s = true → Py.count "-" s = 0%nat.
Proof.
  intros Hs. apply count_zero_sall. revert Hs. apply sall_impl.
  intros c Hc. by rewrite digit_not_dash.
Qed.

Lemma parse_entry_span (a b : N) :
  parse_entry (token_text (Span a b)) = Ok [Z.of_N a; Z.of_N b].
Proof.
  unfold parse_entry, token_text.
  pose proof (digits_no_dash _ (decimal_digits a)) as Ha.
  pose proof (digits_no_dash _ (decimal_digits b)) as Hb.
  rewrite contains_char, count_app. simpl.
  replace (Py.count "-" (Py.decimal a) + S (Py.count "-" (Py.decimal b)))%nat
    with (S (Py.count "-" (Py.decimal a) + Py.count "-" (Py.decimal b)))
    by lia.
  simpl. rewrite split_S by (rewrite count_app; simpl; lia).
  rewrite before_app, after_app, split_0 by done.
  simpl. unfold int_or_raise. by rewrite !int_decimal.
Qed.

Lemma parse_entry_page (n : N) :
  parse_entry (token_text (Page n)) = Ok [Z.of_N n; Z.of_N n].
Proof.
  unfold parse_entry, token_text.
  rewrite contains_char, (digits_no_dash _ (decimal_digits n)). simpl.
  unfold int_or_raise. by rewrite int_decimal.
Qed.

Lemma token_text_word (t : range_token) :
  token_text t ≠ "" ∧ sall (λ c, negb (Py.isspace c)) (token_text t) = true.
Proof.
  assert (∀ n, sall (λ c, negb (Py.isspace c)) (Py.decimal n) = true) as Hd.
  { intros n. eapply sall_impl; [|apply decimal_digits].
    intros c Hc. by rewrite digit_not_space. }
  destruct t as [a b|n]; simpl.
  - split.
    + destruct (decimal_eq a) as [_ Ha]. by destruct (Py.decimal a).
    + by rewrite sall_app, Hd; simpl; rewrite Hd.
  - split; [apply decimal_eq | apply Hd].
Qed.

Lemma parse_ranges_tokens (tokens : list range_token) :
  parse_ranges (Py.join " " (token_text <$> tokens))
  = Ok (token_interval <$> tokens).
Proof.
  unfold parse_ranges. rewrite split_ws_join.
  - induction tokens as [|t ts IH]; [done|].
    rewrite !fmap_cons. cbn [comprehension]. rewrite IH.
    by destruct t; rewrite ?parse_entry_span, ?parse_entry_page.
  - apply Forall_fmap, Forall_forall. intros t _. apply token_text_word.
Qed.

Lemma parse_line_cases (line : string) :
  let l := Py.strip (before "#" line) in
  parse_line line
  = if String.eqb l "" then Ok NoChapter
    else
      match Py.count "|" l with
      | 0%nat => Ok NoChapter
      | 1%nat => Raise ValueError
      | _ =>
          let '(type, title, rangeexpr) := fields l in
          if String.eqb type "" then
            ranges ← parse_ranges rangeexpr;
            Ok (NewChapter REGULAR title ranges)
          else if String.eqb type "index" then
            ranges ← parse_ranges rangeexpr;
            Ok (NewChapter INDEX title ranges)
          else if String.eqb type "-" then Ok NoChapter
          else Raise (Exception ("Unknown chapter definition " +:+ l))
      end.
Proof.
  intros l. unfold parse_line. rewrite split_hd. fold l.
  destruct (String.eqb l ""); [done|].
  rewrite contains_char.
  destruct (Py.count "|" l) as [|[|n]] eqn:Hc; [done|..].
  - rewrite splitn_S by lia.
    by rewrite splitn_0 by (rewrite count_after, Hc; done).
  - rewrite splitn_S by lia.
    rewrite splitn_S by (rewrite count_after, Hc; done).
    unfold fields. by destruct (after "|" (after "|" l)).
Qed.

(** C1 (amended). A line of the index file counts without what follows its
    first [#] and without the white space around the rest. When nothing is
    left, or no [|], the line is skipped; with exactly one [|] the parser
    raises; otherwise the line is cut at its first two [|] into a type, a
    title and a range expression, each stripped. For the types that start a
    chapter (the empty one and [index]) the range expression is read token by
    token: a token [a-b] of two numbers gives the interval from [a] to [b],
    a single number [n] the interval from [n] to [n]. *)
Theorem C1_index_line (line : string) (tokens : list range_token) :
  let l := Py.strip (before "#" line) in
  Py.count "#" (before "#" line) = 0%nat
  ∧ (line = before "#" line
     ∨ line = before "#" line +:+ String "#" (after "#" line))
  ∧ (∃ ws1 ws2, before "#" line = ws1 +:+ l +:+ ws2
       ∧ blank ws1 = true ∧ blank ws2 = true
       ∧ starts_space l = false ∧ ends_space l = false)
  ∧ parse_line line
    = (if String.eqb l "" then Ok NoChapter
       else
         match Py.count "|" l with
         | 0%nat => Ok NoChapter
         | 1%nat => Raise ValueError
         | _ =>
             let '(type, title, rangeexpr) := fields l in
             if String.eqb type "" then
               ranges ← parse_ranges rangeexpr;
               Ok (NewChapter REGULAR title ranges)
             else if String.eqb type "index" then
               ranges ← parse_ranges rangeexpr;
               Ok (NewChapter INDEX title ranges)
             else if String.eqb type "-" then Ok NoChapter
             else Raise (Exception ("Unknown chapter definition " +:+ l))
         end)
  ∧ parse_ranges (Py.join " " (token_text <$> tokens))
    = Ok (token_interval <$> tokens).
Proof.
  intros l. split_and!.
  - apply count_before.
  - destruct (decide (Py.count "#" line = 0%nat)) as [Hc|Hc].
    + left. clear l. induction line as [|a r IH]; [done|]. simpl in *.
      destruct (Ascii.eqb a "#"); [done|]. by rewrite <- IH.
    + right. by apply before_after.
  - apply strip_spec.
  - apply parse_line_cases.
  - apply parse_ranges_tokens.
Qed.

(** C1 as stated fails on a line with a single [|]: it is neither skipped
    nor cut into three fields, the parser raises. *)
Lemma C1_single_bar_counterexample :
  let line := "|Preface" in
  let l := Py.strip (before "#" line) in
  l ≠ "" ∧ Py.contains "|" l = true
  ∧ Py.splitn "|" 2 l = [""; "Preface"]
  ∧ parse_line line = Raise ValueError
  ∧ parse_lines [line] 0 [] = Raise ValueError.
Proof. by split_and!. Qed.

Lemma parse_lines_from (lines : list string) (i : nat)
    (values cs : list RuneChapter.t) :
  parse_lines lines i values = Ok cs →
  cs = values
       ++ imap (λ k '(type, title, ranges),
                  RuneChapter.Build type (i + k) title ranges)
            (chapter_lines lines).
Proof.
  revert i values. induction lines as [|line rest IH]; intros i values; simpl.
  { intros [= <-]. by rewrite app_nil_r. }
  unfold chapter_lines. simpl. fold (chapter_lines rest).
  destruct (parse_line line) as [[|type title ranges]|e]; simpl; [..|done].
  - apply IH.
  - intros ->%IH. rewrite <- app_assoc. simpl. f_equal.
    rewrite Nat.add_0_r. f_equal. apply imap_ext.
    intros k [[??]?] _. simpl. f_equal. lia.
Qed.

Lemma zfill_length (w : nat) (s : string) :
  String.length (Py.zfill w s) = Nat.max w (String.length s).
Proof.
  unfold Py.zfill. rewrite slength_app.
  assert (∀ c n, String.length (Py.repeat c n) = n) as ->.
  { intros c n. induction n; simpl; auto. }
  lia.
Qed.

Lemma uint_of_string_zeros (k : nat) (s : string) (d : Decimal.uint) :
  NilEmpty.uint_of_string s = Some d →
  ∃ d', NilEmpty.uint_of_string (Py.repeat "0" k +:+ s) = Some d'
        ∧ N.of_uint d' = N.of_uint d.
Proof.
  intros Hd. induction k as [|k (d' & Hd' & Heq)]; simpl; [by exists d|].
  exists (Decimal.D0 d'). by rewrite Hd'.
Qed.

Lemma int_zfill (w : nat) (n : N) :
  Py.int (Py.zfill w (Py.decimal n)) = Some (Z.of_N n).
Proof.
  destruct (decimal_eq n) as [Heq Hne].
  destruct (uint_of_string_zeros (w - String.length (Py.decimal n))
              (Py.decimal n) (N.to_uint n)) as (d' & Hd' & Hof).
  { rewrite Heq. apply NilEmpty.usu. }
  erewrite int_digits; [| | |exact Hd'].
  - by rewrite Hof, DecimalN.Unsigned.of_to.
  - unfold Py.zfill. rewrite sall_app, decimal_digits, andb_true_r.
    generalize (w - String.length (Py.decimal n))%nat.
    intros k. induction k; simpl; auto.
  - unfold Py.zfill. destruct (Py.repeat _ _); [done|discriminate].
Qed.

(** The name read back as a number is the number it was made from. *)
Lemma int_format_04d (n : Z) : Py.int (Py.format_04d n) = Some n.
Proof.
  unfold Py.format_04d. destruct (Z.ltb_spec n 0) as [Hn|Hn].
  - pose proof (int_zfill 3 (Z.abs_N n)) as Hi. unfold Py.int in *.
    destruct (decimal_eq (Z.abs_N n)) as [_ Hne].
    set (s := Py.zfill 3 (Py.decimal (Z.abs_N n))) in *.
    assert (sall is_digit s = true ∧ s ≠ "") as [Hs Hs0].
    { unfold s, Py.zfill. rewrite sall_app, decimal_digits, andb_true_r.
      split; [|by destruct (Py.repeat _ _), (Py.decimal _)].
      generalize (3 - String.length (Py.decimal (Z.abs_N n)))%nat.
      intros k. induction k; simpl; auto. }
    assert (Py.strip s = s) as Hst.
    { apply strip_id; [eapply sall_starts | eapply sall_ends];
        eauto using digit_not_space. }
    assert (Py.strip ("-" +:+ s) = "-" +:+ s) as ->.
    { apply strip_id; [done|]. simpl. destruct s; [done|].
      eapply (sall_ends is_digit); eauto using digit_not_space. }
    rewrite Hst in Hi. simpl.
    assert (match s with
            | String "+" r => (false, r)
            | String "-" r => (true, r)
            | _ => (false, s)
            end = (false, s)) as Hm.
    { destruct s as [|c r]; [done|]. simpl in Hs.
      apply andb_prop in Hs as [Hc _].
      by destruct c as [[] [] [] [] [] [] [] []]. }
    rewrite Hm in Hi.
    destruct (Py.drop_underscores false s) as [digits|]; [|done]. simpl in *.
    destruct (NilEmpty.uint_of_string digits) as [d|]; [|done]. simpl in *.
    injection Hi as Hi. f_equal. lia.
  - rewrite int_zfill. f_equal. lia.
Qed.

Lemma format_04d_injective (m n : Z) :
  Py.format_04d m = Py.format_04d n → m = n.
Proof.
  intros Heq. pose proof (int_format_04d m) as Hm.
  rewrite Heq, int_format_04d in Hm. congruence.
Qed.

(** Up to 9999 the name has four characters, and never fewer. *)
Lemma format_04d_length (n : Z) :
  (4 ≤ String.length (Py.format_04d n))%nat
  ∧ (0 ≤ n < 10000 → String.length (Py.format_04d n) = 4%nat).
Proof.
  split.
  - unfold Py.format_04d. destruct (n <? 0).
    + simpl. rewrite zfill_length. lia.
    + rewrite zfill_length. lia.
  - intros Hn.
    assert (forallb (λ k, Nat.eqb (String.length (Py.format_04d k)) 4)
              (seqZ 0 10000) = true) as Hall by (vm_compute; reflexivity).
    rewrite forallb_forall in Hall.
    apply Nat.eqb_eq, Hall, list_elem_of_In, elem_of_seqZ. lia.
Qed.

(** C8. The chapters of an index file that parses are those its lines
    yield, in the order of the file, numbered 0, 1, 2, ...; a line that yields
    none, as one of type [-] does, takes no number. The id of a chapter is
    [chapter] followed by its index padded with zeros to four digits at
    least, and its file name is the id followed by [.xhtml]. *)
Theorem C8_chapter_indices (lines : list string) (cs : list RuneChapter.t)
    (line : string) (c : EPubChapter.t) :
  parse_lines lines 0 [] = Ok cs →
  cs = imap (λ i '(type, title, ranges),
               RuneChapter.Build type i title ranges) (chapter_lines lines)
  ∧ RuneChapter.index <$> cs = seq 0 (length cs)
  ∧ (let l := Py.strip (before "#" line) in
     (2 ≤ Py.count "|" l)%nat → (fields l).1.1 = "-" →
     parse_line line = Ok NoChapter ∧ chapter_lines [line] = [])
  ∧ EPubChapter.id c
    = "chapter" +:+ Py.format_04d (Z.of_nat (EPubChapter.index c))
  ∧ EPubChapter.filename c = EPubChapter.id c +:+ ".xhtml"
  ∧ Py.int (Py.format_04d (Z.of_nat (EPubChapter.index c)))
    = Some (Z.of_nat (EPubChapter.index c))
  ∧ (4 ≤ String.length (Py.format_04d (Z.of_nat (EPubChapter.index c))))%nat
  ∧ (Z.of_nat (EPubChapter.index c) < 10000 →
     String.length (Py.format_04d (Z.of_nat (EPubChapter.index c))) = 4%nat).
Proof.
  intros Hp. apply parse_lines_from in Hp. simpl in Hp. split_and!.
  - done.
  - rewrite Hp. rewrite length_imap. generalize (chapter_lines lines).
    intros es.
    assert (∀ (f : nat → nat) i,
              (∀ k, f k = (i + k)%nat) →
              RuneChapter.index <$>
                imap (λ k '(type, title, ranges),
                        RuneChapter.Build type (f k) title ranges) es
              = seq i (length es)) as Hgen.
    { induction es as [|[[??]?] es IH]; intros f i Hf; [done|]. simpl.
      rewrite Hf, Nat.add_0_r. f_equal.
      apply (IH (f ∘ S) (S i)). intros k. simpl. rewrite Hf. lia. }
    by apply (Hgen (λ k, k) 0%nat).
  - intros l Hc Ht. assert (parse_line line = Ok NoChapter) as Hn.
    { rewrite parse_line_cases. fold l. destruct (String.eqb l ""); [done|].
      destruct (Py.count "|" l) as [|[|k]]; [lia..|].
      destruct (fields l) as [[type title] rangeexpr]. simpl in Ht.
      by subst type. }
    split; [done|]. unfold chapter_lines. simpl. by rewrite Hn.
  - done.
  - done.
  - apply int_format_04d.
  - apply format_04d_length.
  - intros Hi. apply format_04d_length. lia.
Qed.

Lemma C8_chapter_indices_witness :
  let lines := ["|One|1-2"; "-|Sub|2"; "index|Two|3"] in
  let cs := [RuneChapter.Build REGULAR 0 "One" [[1; 2]];
             RuneChapter.Build INDEX 1 "Two" [[3; 3]]] in
  parse_lines lines 0 [] = Ok cs
  ∧ RuneChapter.index <$> cs = seq 0 (length cs)
  ∧ parse_line "-|Sub|2" = Ok NoChapter
  ∧ EPubChapter.filename (EPubChapter.Build INDEX 1 "Two")
    = "chapter0001.xhtml".
Proof.
  intros lines cs.
  assert (parse_lines lines 0 [] = Ok cs) as Hp by reflexivity.
  pose proof (C8_chapter_indices lines cs "-|Sub|2"
                (EPubChapter.Build INDEX 1 "Two") Hp)
    as (_ & Hi & Hs & _ & Hf & _).
  split_and!; [exact Hp | exact Hi | | reflexivity].
  apply Hs; [vm_compute; lia | reflexivity].
Defined.

(** ** Paths *)

Lemma startswith_app (p s : string) : Py.startswith p (p +:+ s) = true.
Proof.
  induction p as [|c p IH]; simpl; [done|]. by rewrite Ascii.eqb_refl.
Qed.

Lemma startswith_app_same (p s t : string) :
  Py.startswith (p +:+ s) (p +:+ t) = Py.startswith s t.
Proof.
  induction p as [|c p IH]; simpl; [done|]. by rewrite Ascii.eqb_refl.
Qed.

Lemma startswith_app_l (a b p : string) :
  Py.startswith (a +:+ b) p = true → Py.startswith a p = true.
Proof.
  revert p. induction a as [|c a IH]; intros p; simpl; [done|].
  destruct p as [|d p]; [done|].
  intros [-> Hp]%andb_prop. simpl. by apply IH.
Qed.

Lemma startswith_split (p s : string) :
  Py.startswith p s = true → ∃ t, s = p +:+ t.
Proof.
  revert s. induction p as [|c p IH]; intros s; simpl; [by exists s|].
  destruct s as [|d s]; [done|].
  intros [Hc Hp]%andb_prop. apply Ascii.eqb_eq in Hc as ->.
  destruct (IH _ Hp) as [t ->]. by exists t.
Qed.

Lemma endswith_sep_app (s t : string) :
  t ≠ "" → Path.endswith_sep (s +:+ t) = Path.endswith_sep t.
Proof.
  intros Ht. induction s as [|c s IH]; [done|]. rewrite sapp_cons.
  change (Path.endswith_sep (String c (s +:+ t)))
    with (match s +:+ t with
          | "" => Ascii.eqb c "/"
          | _ => Path.endswith_sep (s +:+ t)
          end).
  rewrite IH. destruct s, t; done.
Qed.

(** Joining a relative component puts it after the directory prefix. *)
Lemma join2_rel (p b : string) :
  Py.startswith "/" b = false → Path.join2 p b = Path.join2 p "" +:+ b.
Proof.
  intros Hb. unfold Path.join2. rewrite Hb. simpl.
  destruct (String.eqb p "" || Path.endswith_sep p).
  - by rewrite sapp_nil_r.
  - by rewrite !sapp_assoc.
Qed.

(** The prefix of a directory whose name ends in a path component. *)
Lemma join2_dir (p name : string) :
  name ≠ "" → Path.endswith_sep name = false →
  Path.join2 (p +:+ name) "" = p +:+ name +:+ "/".
Proof.
  intros Hn He. unfold Path.join2. simpl.
  rewrite endswith_sep_app, He by done.
  assert (String.eqb (p +:+ name) "" = false) as ->.
  { apply String.eqb_neq. by destruct p, name. }
  simpl. by rewrite !sapp_assoc.
Qed.

Section Paths.
Context `{Host}.

Lemma dir_eq (bookname name : string) :
  Py.startswith "/" name = false →
  Path.join RUNEDIR [bookname; name] = book_root bookname +:+ name.
Proof. intros Hn. unfold Path.join, book_root. simpl. by apply join2_rel. Qed.

Lemma temp_dir_eq (b : string) : _get_temp_dir b = book_root b +:+ "temp".
Proof. by apply dir_eq. Qed.

Lemma downloaded_dir_eq (b : string) :
  _get_downloaded_dir b = book_root b +:+ "downloaded".
Proof. by apply dir_eq. Qed.

Lemma unpack_dir_eq (b : string) :
  _get_unpack_dir b = book_root b +:+ "unpacked".
Proof. by apply dir_eq. Qed.

Lemma build_dir_eq (b : string) : _get_build_dir b = book_root b +:+ "build".
Proof. by apply dir_eq. Qed.

(** A file directly or further below one of the book's directories. *)
Lemma join_below (b dir : string) (names : list string) (name : string) :
  dir ≠ "" → Path.endswith_sep dir = false →
  Py.startswith "/" name = false →
  Path.join (book_root b +:+ dir) [name] = book_root b +:+ dir +:+ "/" +:+ name.
Proof.
  intros Hd He Hn. unfold Path.join. simpl.
  by rewrite join2_rel, join2_dir, !sapp_assoc.
Qed.

Lemma private_root (b s : string) : private b (book_root b +:+ s) = true.
Proof. apply startswith_app. Qed.

Lemma inside_private (b dir p : string) :
  Os.inside (book_root b +:+ dir) p = true → private b p = true.
Proof.
  unfold Os.inside, private, Path.join2. simpl.
  destruct (_ || _); rewrite ?sapp_assoc; apply startswith_app_l.
Qed.

End Paths.

(** ** Exceptions of the index parser *)

Lemma existsb_eq {A} (f g : A → bool) (l : list A) :
  (∀ x, f x = g x) → existsb f l = existsb g l.
Proof. intros Hfg. induction l as [|x l IH]; simpl; [done|]. by rewrite Hfg, IH. Qed.

Lemma raises_comprehension {A B} (f : A → result B) (l : list A) :
  raises (comprehension f l) = existsb (λ x, raises (f x)) l.
Proof.
  induction l as [|x l IH]; [done|]. simpl.
  destruct (f x); simpl; [|done]. rewrite <- IH.
  by destruct (comprehension f l).
Qed.

Lemma raises_parse_entry (token : string) :
  raises (parse_entry token)
  = existsb (λ x, bool_decide (Py.int x = None)) (Py.split "-" token).
Proof.
  unfold parse_entry. rewrite contains_char.
  destruct (Py.count "-" token) as [|n] eqn:Hc; simpl.
  - rewrite split_0 by done. simpl. unfold int_or_raise.
    by destruct (Py.int token).
  - rewrite raises_comprehension. apply existsb_eq.
    intros x. unfold int_or_raise. by destruct (Py.int x).
Qed.

Lemma raises_parse_ranges (rangeexpr : string) :
  raises (parse_ranges rangeexpr) = bad_range rangeexpr.
Proof.
  unfold parse_ranges, bad_range. rewrite raises_comprehension.
  apply existsb_eq. intros token. apply raises_parse_entry.
Qed.

Lemma raises_parse_line (line : string) :
  raises (parse_line line) = bad_line line.
Proof.
  rewrite parse_line_cases. unfold bad_line.
  set (l := Py.strip (before "#" line)).
  destruct (String.eqb_spec l "") as [->|Hl]; [done|].
  destruct (Py.count "|" l) as [|[|n]]; [done..|].
  destruct (fields l) as [[type title] rangeexpr].
  destruct (String.eqb type ""); simpl.
  { rewrite <- raises_parse_ranges. by destruct (parse_ranges rangeexpr). }
  destruct (String.eqb type "index"); simpl.
  { rewrite <- raises_parse_ranges. by destruct (parse_ranges rangeexpr). }
  by destruct (String.eqb type "-").
Qed.

Lemma raises_parse_lines (lines : list string) (i : nat)
    (values : list RuneChapter.t) :
  raises (parse_lines lines i values) = existsb bad_line lines.
Proof.
  revert i values. induction lines as [|line rest IH]; intros i values;
    [done|].
  simpl. rewrite <- raises_parse_line.
  destruct (parse_line line) as [[|type title ranges]|e]; simpl; auto.
Qed.

Lemma exit_returns (self : EpubWriter.t) (w : world) :
  ∃ w', EpubWriter.__exit__ self w = (Ok (), w').
Proof.
  unfold EpubWriter.__exit__.
  destruct (EpubWriter.book_opf self), (EpubWriter.book_ncx self);
    by eexists.
Qed.

Section Propagation.
Context `{Host}.

Lemma with_writer_raises (b : string) (writer : EpubWriter.t) (w w1 : world)
    (e : exn) :
  _parse_unpacked_rune_chapters b w = (Raise e, w1) →
  (with_writer writer (with_block b writer) w).1 = Raise e.
Proof.
  intros Hp. unfold with_writer, with_block. rewrite Hp.
  by destruct (exit_returns writer w1) as [w2 ->].
Qed.

Lemma build_epub_raises (b a : string) (w w1 w2 : world)
    (writer : EpubWriter.t) (e : exn) :
  open_writer b a w = (Ok writer, w1) →
  _parse_unpacked_rune_chapters b w1 = (Raise e, w2) →
  (build_epub b a w).1 = Raise e.
Proof.
  intros Ho Hp. unfold build_epub, mbind, M_bind. rewrite Ho.
  by eapply with_writer_raises.
Qed.

Lemma run_stage_raises (s : stage) (m : M ()) (w w' : world) (e : exn) :
  m (emit (Call s) w).2 = (Raise e, w') → run_stage s m w = (Raise e, w').
Proof.
  intros Hm. unfold run_stage, mbind, M_bind. simpl in *. by rewrite Hm.
Qed.

Lemma main_raises `{ArgParse} (argv : list string)
    (args : gmap string string) (b a : string) (w w1 w2 w3 : world)
    (e : exn) :
  parse_args parser argv = Some args →
  args !! "id" = Some b → args !! "author" = Some a →
  run_stage Download (download b) w = (Ok (), w1) →
  run_stage Unpack (unpack b) w1 = (Ok (), w2) →
  run_stage BuildEpub (build_epub b a) w2 = (Raise e, w3) →
  main argv w = (Raise e, w3).
Proof.
  intros Hargs Hb Ha Hd Hu Hbuild. unfold main. rewrite Hargs.
  unfold getattr, mbind, M_bind, mret, M_ret. rewrite Hb, Ha.
  by rewrite Hd, Hu, Hbuild.
Qed.

End Propagation.

(** C6 (amended). The index parser raises exactly when some line of the
    file, once its comment and the white space around are gone, has a
    single [|], or a type field other than the empty one, [index] and [-],
    or a type field that starts a chapter together with a range token that
    is not made of integers. With an unknown type field the exception is
    the one that names the line. No exception of the parser is caught: it
    ends the [with] statement, [build_epub] and [main]. *)
Theorem C6_index_errors `{Host} `{ArgParse} (lines : list string) (i : nat)
    (values : list RuneChapter.t) (line : string) :
  raises (parse_lines lines i values) = existsb bad_line lines
  ∧ (let l := Py.strip (before "#" line) in
     (2 ≤ Py.count "|" l)%nat →
     (fields l).1.1 ≠ "" → (fields l).1.1 ≠ "index" → (fields l).1.1 ≠ "-" →
     parse_line line = Raise (Exception ("Unknown chapter definition " +:+ l)))
  ∧ (∀ b writer w w1 e,
       _parse_unpacked_rune_chapters b w = (Raise e, w1) →
       (with_writer writer (with_block b writer) w).1 = Raise e)
  ∧ (∀ b a w w1 w2 writer e,
       open_writer b a w = (Ok writer, w1) →
       _parse_unpacked_rune_chapters b w1 = (Raise e, w2) →
       (build_epub b a w).1 = Raise e)
  ∧ (∀ argv args b a w w1 w2 w3 e,
       parse_args parser argv = Some args →
       args !! "id" = Some b → args !! "author" = Some a →
       run_stage Download (download b) w = (Ok (), w1) →
       run_stage Unpack (unpack b) w1 = (Ok (), w2) →
       run_stage BuildEpub (build_epub b a) w2 = (Raise e, w3) →
       main argv w = (Raise e, w3)).
Proof.
  split_and!.
  - apply raises_parse_lines.
  - intros l Hc H1 H2 H3. rewrite parse_line_cases. fold l.
    destruct (String.eqb_spec l "") as [Hl|Hl].
    { rewrite Hl in Hc. simpl in Hc. lia. }
    destruct (Py.count "|" l) as [|[|n]]; [lia..|].
    destruct (fields l) as [[type title] rangeexpr]. simpl in *.
    apply String.eqb_neq in H1, H2, H3. by rewrite H1, H2, H3.
  - intros. by eapply with_writer_raises.
  - intros. by eapply build_epub_raises.
  - intros. by eapply main_raises.
Qed.

(** C6 as stated fails on a line whose type field is the empty one and
    whose range expression is not a number: the parser raises. *)
Lemma C6_bad_range_counterexample :
  let line := "|Preface|iv" in
  let l := Py.strip (before "#" line) in
  fields l = ("", "Preface", "iv")
  ∧ parse_line line = Raise ValueError
  ∧ parse_lines [line] 0 [] = Raise ValueError.
Proof. by split_and!. Qed.

(** ** The page reader *)

Lemma format_04d_not_abs (n : Z) (s : string) :
  Py.startswith "/" (Py.format_04d n +:+ s) = false.
Proof.
  unfold Py.format_04d. destruct (n <? 0); [done|].
  unfold Py.zfill. destruct (4 - _)%nat; [|done]. simpl.
  destruct (decimal_eq (Z.to_N n)) as [_ Hne].
  pose proof (decimal_digits (Z.to_N n)) as Hd.
  destruct (Py.decimal (Z.to_N n)) as [|c r]; [done|]. simpl in *.
  apply andb_prop in Hd as [Hc _].
  by destruct c as [[] [] [] [] [] [] [] []].
Qed.

Section Reader.
Context `{Host}.

Lemma page_path_eq (b : string) (n : Z) :
  page_path b n
  = _get_unpack_dir b +:+ "/Pages/" +:+ Py.format_04d n +:+ ".txt".
Proof.
  unfold page_path, Path.join. cbn [foldl]. rewrite unpack_dir_eq.
  rewrite (join2_rel _ (Py.format_04d n +:+ ".txt"))
    by apply format_04d_not_abs.
  rewrite (join2_rel _ "Pages") by done.
  rewrite (join2_dir (book_root b) "unpacked") by done.
  rewrite (join2_dir (book_root b +:+ "unpacked" +:+ "/") "Pages") by done.
  by rewrite !sapp_assoc.
Qed.

Lemma read_pages_all (w : world) (b : string) (pages : list Z) :
  (∀ n, n ∈ pages → is_Some (files w !! page_path b n)) →
  read_pages w b pages = (pages ≫= page_lines w b, None).
Proof.
  induction pages as [|n pages IH]; intros Hall; [done|]. simpl.
  unfold Os.read_file, page_lines at 1.
  destruct (Hall n) as [c Hc]; [by left|]. rewrite Hc.
  rewrite IH; [done|]. intros m Hm. apply Hall. by right.
Qed.

Lemma reader_all (w : world) (b : string) (intervals : list (Z * Z)) :
  (∀ r n, r ∈ intervals → r.1 ≤ n ≤ r.2 →
          is_Some (files w !! page_path b n)) →
  _unpacked_range_reader w b ((λ r, [r.1; r.2]) <$> intervals)
  = (intervals ≫= (λ r, seqZ r.1 (r.2 + 1 - r.1) ≫= page_lines w b), None).
Proof.
  induction intervals as [|r rs IH]; intros Hall; [done|].
  rewrite fmap_cons. cbn [_unpacked_range_reader lookup list_lookup].
  rewrite read_pages_all.
  - rewrite IH; [done|]. intros r' n Hr'. apply Hall. by right.
  - intros n Hn%elem_of_seqZ. apply (Hall r); [by left | lia].
Qed.

Lemma page_lines_stripped (w : world) (b : string) (n : Z) (l : string) :
  l ∈ page_lines w b n →
  starts_space l = false ∧ ends_space l = false
  ∧ ∃ c raw, files w !! page_path b n = Some c
           ∧ raw ∈ Py.lines c ∧ l = Py.strip raw.
Proof.
  unfold page_lines. destruct (files w !! page_path b n) as [c|] eqn:Hc.
  - intros (raw & -> & Hraw)%list_elem_of_fmap.
    destruct (strip_spec raw) as (? & ? & _ & _ & _ & Hs & He).
    split_and!; [done..|]. by exists c, raw.
  - by intros ?%elem_of_nil.
Qed.

End Reader.

(** C2. When the ranges of a chapter are intervals and the pages they name
    exist, the reader yields, interval after interval and page after page
    from the first to the last number of each interval, the lines of each
    page; the page numbered [n] is the file whose name is [n] padded with
    zeros to four digits, followed by [.txt]; and every line comes without
    the white space that was around it. *)
Theorem C2_range_reader `{Host} (w : world) (b : string)
    (intervals : list (Z * Z)) :
  (∀ r n, r ∈ intervals → r.1 ≤ n ≤ r.2 →
          is_Some (files w !! page_path b n)) →
  _unpacked_range_reader w b ((λ r, [r.1; r.2]) <$> intervals)
  = (intervals ≫= (λ r, seqZ r.1 (r.2 + 1 - r.1) ≫= page_lines w b), None)
  ∧ (∀ r n, n ∈ seqZ r.1 (r.2 + 1 - r.1) ↔ r.1 ≤ n ≤ r.2)
  ∧ (∀ r (i : nat), Z.of_nat i < r.2 + 1 - r.1 →
       seqZ r.1 (r.2 + 1 - r.1) !! i = Some (r.1 + Z.of_nat i))
  ∧ (∀ n, page_path b n
          = _get_unpack_dir b +:+ "/Pages/" +:+ Py.format_04d n +:+ ".txt"
          ∧ Py.int (Py.format_04d n) = Some n
          ∧ (0 ≤ n < 10000 → String.length (Py.format_04d n) = 4%nat))
  ∧ (∀ n l, l ∈ page_lines w b n →
       starts_space l = false ∧ ends_space l = false
       ∧ ∃ c raw, files w !! page_path b n = Some c
                ∧ raw ∈ Py.lines c ∧ l = Py.strip raw).
Proof.
  intros Hall. split_and!.
  - by apply reader_all.
  - intros r n. rewrite elem_of_seqZ. lia.
  - intros r i Hi. by apply lookup_seqZ_lt.
  - intros n. split_and!.
    + apply page_path_eq.
    + apply int_format_04d.
    + apply format_04d_length.
  - apply page_lines_stripped.
Qed.

Lemma C2_range_reader_witness :
  _unpacked_range_reader (H := sample_host) pages_world "saga" [[1; 2]]
  = ([ "first"; "second"; "third" ], None).
Proof.
  pose proof (C2_range_reader (H := sample_host) pages_world "saga" [(1, 2)])
    as Hc.
  destruct Hc as [Hr _].
  - intros r n ->%list_elem_of_singleton Hn. simpl in Hn.
    assert (n = 1 ∨ n = 2) as [-> | ->] by lia; vm_compute; eauto.
  - exact Hr.
Defined.

(** ** Computations and what they keep *)

#[local] Instance touches_preorder (S : string → Prop) : PreOrder (touches S).
Proof.
  split; [by intros w p|]. intros w1 w2 w3 H12 H23 p Hp.
  by rewrite H23, H12.
Qed.

#[local] Instance grows_preorder : PreOrder grows.
Proof. split; [by intros w p|]. intros w1 w2 w3 H12 H23 p Hp. auto. Qed.

#[local] Instance dirs_grow_preorder : PreOrder dirs_grow.
Proof. unfold dirs_grow. split; [by intros w|]. intros w1 w2 w3. set_solver. Qed.

#[local] Instance silent_preorder : PreOrder silent.
Proof. unfold silent. split; [done|]. intros w1 w2 w3. congruence. Qed.

#[local] Instance same_net_preorder : PreOrder same_net.
Proof. unfold same_net. split; [done|]. intros w1 w2 w3. congruence. Qed.

Lemma stage_events_app (l k : list event) :
  stage_events (l ++ k) = stage_events l ++ stage_events k.
Proof. unfold stage_events. apply List.filter_app. Qed.

#[local] Instance requests_only_preorder : PreOrder requests_only.
Proof.
  split.
  - intros w. exists []. by rewrite app_nil_r.
  - intros w1 w2 w3 (e1 & H1 & Hs1) (e2 & H2 & Hs2). exists (e1 ++ e2).
    rewrite H2, H1, app_assoc, stage_events_app, Hs1, Hs2. done.
Qed.

Lemma silent_requests_only (w w' : world) : silent w w' → requests_only w w'.
Proof. intros Hs. exists []. by rewrite app_nil_r. Qed.

Lemma touches_mono (S S' : string → Prop) (w w' : world) :
  (∀ p, S p → S' p) → touches S w w' → touches S' w w'.
Proof. intros HS Ht p Hp. apply Ht. auto. Qed.

Section Keeps.
Context (R : relation world) `{!PreOrder R}.

Lemma keeps_ret {A} (a : A) : keeps R (mret a).
Proof. intros w r w' [= <- <-]. reflexivity. Qed.

Lemma keeps_raise {A} (e : exn) : keeps R (raise (A:=A) e).
Proof. intros w r w' [= <- <-]. reflexivity. Qed.

Lemma keeps_lift {A} (x : result A) : keeps R (lift x).
Proof. intros w r w' [= <- <-]. reflexivity. Qed.

Lemma keeps_bind {A B} (m : M A) (f : A → M B) :
  keeps R m → (∀ a, keeps R (f a)) → keeps R (m ≫= f).
Proof.
  intros Hm Hf w r w'. unfold mbind, M_bind.
  destruct (m w) as [[a|e] w1] eqn:Hmw.
  - intros Hfa. etrans; [by eapply Hm | by eapply Hf].
  - intros [= <- <-]. by eapply Hm.
Qed.

Lemma keeps_if {A} (b : bool) (m1 m2 : M A) :
  keeps R m1 → keeps R m2 → keeps R (if b then m1 else m2).
Proof. by destruct b. Qed.

Lemma keeps_try (m : M ()) : keeps R m → keeps R (try_except_OSError m).
Proof.
  intros Hm w r w'. unfold try_except_OSError.
  destruct (m w) as [[[]|e] w1] eqn:Hmw.
  - intros [= <- <-]. by eapply Hm.
  - destruct (is_OSError e); intros [= <- <-]; by eapply Hm.
Qed.

Lemma keeps_for_each {A} (l : list A) (body : A → M ()) :
  (∀ x, keeps R (body x)) → keeps R (for_each l body).
Proof.
  intros Hb. induction l as [|x l IH]; simpl.
  - apply keeps_ret.
  - apply keeps_bind; auto.
Qed.

Lemma keeps_mapM {A B} (f : A → M B) (l : list A) :
  (∀ x, keeps R (f x)) → keeps R (mapM f l).
Proof.
  intros Hf. induction l as [|x l IH]; simpl.
  - apply keeps_ret.
  - apply keeps_bind; [auto|]. intros y.
    apply keeps_bind; [auto|]. intros ys. apply keeps_ret.
Qed.

End Keeps.

(** A step that changes nothing keeps every relation of the kind above. *)
Lemma keeps_pure (R : relation world) `{!PreOrder R} {A} (m : M A) :
  (∀ w, (m w).2 = w) → keeps R m.
Proof. intros Hm w r w' Hw. specialize (Hm w). rewrite Hw in Hm. by subst. Qed.

Lemma isfile_pure (p : string) (w : world) : (Os.isfile p w).2 = w.
Proof. done. Qed.
Lemma isdir_pure (p : string) (w : world) : (Os.isdir p w).2 = w.
Proof. done. Qed.
Lemma exists_pure (p : string) (w : world) : (Os.exists_ p w).2 = w.
Proof. done. Qed.
Lemma read_file_pure (p : string) (w : world) : (Os.read_file p w).2 = w.
Proof. unfold Os.read_file. by repeat case_match. Qed.
Lemma walk_pure (p : string) (w : world) : (Os.walk p w).2 = w.
Proof. done. Qed.
Lemma answer_pure (u : string) (w : world) : (answer u w).2 = w.
Proof. unfold answer. by case_match. Qed.

(** The steps that change directories only. *)
Lemma mkdir_dirs (p : string) (w w' : world) (r : result ()) :
  Os.mkdir p w = (r, w') →
  files w' = files w ∧ log w' = log w ∧ net w' = net w ∧ dirs w ⊆ dirs w'.
Proof.
  unfold Os.mkdir. repeat case_match; intros [= <- <-]; simpl;
    split_and!; set_solver.
Qed.

Lemma makedirs_dirs (p : string) (w w' : world) (r : result ()) :
  Os.makedirs p w = (r, w') →
  files w' = files w ∧ log w' = log w ∧ net w' = net w ∧ dirs w ⊆ dirs w'.
Proof.
  unfold Os.makedirs. repeat case_match; intros [= <- <-]; simpl;
    split_and!; set_solver.
Qed.

Lemma rmdir_dirs (p : string) (w w' : world) (r : result ()) :
  Os.rmdir p w = (r, w') →
  files w' = files w ∧ log w' = log w ∧ net w' = net w
  ∧ (∀ d, d ≠ p → d ∈ dirs w → d ∈ dirs w').
Proof.
  unfold Os.rmdir. repeat case_match; intros [= <- <-]; simpl;
    split_and!; set_solver.
Qed.

(** ** The events of a run *)

Ltac prim_effect :=
  let w := fresh "w" in let r := fresh "r" in let w' := fresh "w'" in
  intros w r w';
  unfold Os.mkdir, Os.makedirs, Os.rmtree, Os.rmdir, Os.write_file,
    Os.append_file, Os.rename, Os.read_file, Os.isfile, Os.isdir,
    Os.exists_, Os.walk, answer, emit;
  repeat case_match; intros [= <- <-].

Lemma silent_prims (p p' c : string) :
  keeps silent (Os.isfile p) ∧ keeps silent (Os.isdir p)
  ∧ keeps silent (Os.exists_ p) ∧ keeps silent (Os.read_file p)
  ∧ keeps silent (Os.walk p) ∧ keeps silent (Os.mkdir p)
  ∧ keeps silent (Os.makedirs p) ∧ keeps silent (Os.rmtree p)
  ∧ keeps silent (Os.rmdir p) ∧ keeps silent (Os.write_file p c)
  ∧ keeps silent (Os.append_file p c) ∧ keeps silent (Os.rename p p').
Proof. split_and!; prim_effect; done. Qed.

Lemma same_net_prims (p p' c : string) (e : event) :
  keeps same_net (Os.isfile p) ∧ keeps same_net (Os.isdir p)
  ∧ keeps same_net (Os.exists_ p) ∧ keeps same_net (Os.read_file p)
  ∧ keeps same_net (Os.walk p) ∧ keeps same_net (Os.mkdir p)
  ∧ keeps same_net (Os.makedirs p) ∧ keeps same_net (Os.rmtree p)
  ∧ keeps same_net (Os.rmdir p) ∧ keeps same_net (Os.write_file p c)
  ∧ keeps same_net (Os.append_file p c) ∧ keeps same_net (Os.rename p p')
  ∧ keeps same_net (answer p) ∧ keeps same_net (emit e).
Proof. split_and!; prim_effect; done. Qed.

(** Steps through a computation built from the steps of [Os], for a
    relation that each of these steps keeps. *)
Ltac keeps_steps prims :=
  repeat first
    [ match goal with
      | |- PreOrder _ => apply _
      | |- ∀ _, keeps _ _ => intros ?
      | |- string => exact ""
      | |- event => exact (HttpGet "")
      end
    | apply prims
    | apply keeps_ret | apply keeps_raise | apply keeps_lift
    | apply keeps_if | apply keeps_try
    | apply keeps_for_each
    | apply keeps_mapM
    | apply keeps_bind
    | progress case_match ].

Lemma move_silent (src dst : string) : keeps silent (Os.move src dst).
Proof. unfold Os.move. keeps_steps silent_prims. Qed.

Lemma exit_silent (self : EpubWriter.t) : keeps silent (EpubWriter.__exit__ self).
Proof. unfold EpubWriter.__exit__. keeps_steps silent_prims. Qed.

Lemma init_silent (d a t : string) : keeps silent (EpubWriter.__init__ d a t).
Proof. unfold EpubWriter.__init__. keeps_steps silent_prims. Qed.

Lemma keeps_silent_requests {A} (m : M A) :
  keeps silent m → keeps requests_only m.
Proof. intros Hm w r w' Hw. apply silent_requests_only. by eapply Hm. Qed.

Section Events.
Context `{Host}.

Lemma requests_prims (p p' c u : string) :
  keeps requests_only (Os.isfile p) ∧ keeps requests_only (Os.isdir p)
  ∧ keeps requests_only (Os.makedirs p) ∧ keeps requests_only (Os.rmdir p)
  ∧ keeps requests_only (Os.write_file p c)
  ∧ keeps requests_only (Os.move p p')
  ∧ keeps requests_only (requests_get u).
Proof.
  split_and!;
    try (apply keeps_silent_requests;
         first [apply move_silent | apply silent_prims; exact ""]).
  unfold requests_get. apply keeps_bind; [apply _| |].
  - intros w r w' [= <- <-]. by exists [HttpGet u].
  - intros _. apply keeps_silent_requests.
    apply keeps_pure; [apply _|]. apply answer_pure.
Qed.

Lemma download_requests (b : string) : keeps requests_only (download b).
Proof. unfold download, download_item. keeps_steps requests_prims. Qed.

Lemma unpack_silent (b : string) : keeps silent (unpack b).
Proof.
  unfold unpack, unpack_item, ZipFile_read, extract_member.
  keeps_steps silent_prims.
Qed.

Lemma write_chapter_silent (b d : string) (c : RuneChapter.t) :
  keeps silent (write_chapter b d c).
Proof.
  unfold write_chapter, range_reader.
  keeps_steps silent_prims. by intros w r w' [= <- <-].
Qed.

End Events.

Lemma init_writer_of (d a t : string) (w w' : world) (writer : EpubWriter.t) :
  EpubWriter.__init__ d a t w = (Ok writer, w') → writer_of d writer.
Proof.
  unfold EpubWriter.__init__, mbind, M_bind, mret, M_ret.
  repeat case_match; intros [= <- <-]; done.
Qed.

Section Build.
Context `{Host} (R : relation world) `{!PreOrder R}.

Lemma write_chapters_keeps (b d : string) (writer : EpubWriter.t)
    (cs : list RuneChapter.t) :
  writer_of d writer →
  (∀ c, keeps R (write_chapter b d c)) →
  keeps_block R d (write_chapters b writer cs).
Proof.
  intros Hw Hc. revert writer Hw.
  induction cs as [|c cs IH]; intros writer Hw w x w'.
  { intros [= <- <-]. split; [reflexivity | done]. }
  simpl. destruct Hw as (Hn & Ho & Hd). rewrite Hd.
  destruct (write_chapter _ _ _ w) as [[ec|e] w1] eqn:Hw1.
  - intros Hrest. apply IH in Hrest as [HR Hx]; [|done].
    split; [|done]. etrans; [by eapply Hc | done].
  - intros [= <- <-]. split; [by eapply Hc | done].
Qed.

Lemma with_block_keeps (b d : string) (writer : EpubWriter.t) :
  writer_of d writer →
  keeps R (_parse_unpacked_rune_chapters b) →
  (∀ c, keeps R (write_chapter b d c)) →
  keeps_block R d (with_block b writer).
Proof.
  intros Hw Hp Hc w x w'. unfold with_block.
  destruct (_parse_unpacked_rune_chapters b w) as [[cs|e] w1] eqn:Hw1.
  - intros Hrest. eapply write_chapters_keeps in Hrest as [HR Hx]; [|done..].
    split; [|done]. etrans; [by eapply Hp | done].
  - intros [= <- <-]. split; [by eapply Hp | done].
Qed.

Lemma with_writer_keeps (d : string) (writer : EpubWriter.t)
    (block : world → (EpubWriter.t * result ()) * world) :
  keeps_block R d block →
  (∀ self, writer_of d self → keeps R (EpubWriter.__exit__ self)) →
  keeps R (with_writer writer block).
Proof.
  intros Hb He w r w'. unfold with_writer.
  destruct (block w) as [[writer' rb] w1] eqn:Hw.
  apply Hb in Hw as [HR Hx].
  destruct (EpubWriter.__exit__ writer' w1) as [[[]|e] w2] eqn:Hx2;
    intros [= <- <-]; (etrans; [done | by eapply He]).
Qed.

Lemma build_epub_keeps (b a : string) :
  keeps R (open_writer b a) →
  keeps R (_parse_unpacked_rune_chapters b) →
  (∀ c, keeps R (write_chapter b (_get_build_dir b) c)) →
  (∀ self, writer_of (_get_build_dir b) self →
           keeps R (EpubWriter.__exit__ self)) →
  keeps R (build_epub b a).
Proof.
  intros Ho Hp Hc He w r w'. unfold build_epub, mbind, M_bind.
  destruct (open_writer b a w) as [[writer|e] w1] eqn:Hw1; cycle 1.
  { intros [= <- <-]. by eapply Ho. }
  intros Hrest. etrans; [by eapply Ho|].
  assert (writer_of (_get_build_dir b) writer) as Hw.
  { revert Hw1. unfold open_writer, mbind, M_bind.
    repeat case_match; try done; apply init_writer_of. }
  revert Hrest. apply with_writer_keeps with (d := _get_build_dir b); [|done].
  by apply with_block_keeps.
Qed.

End Build.

Section Stages.
Context `{Host}.

Lemma build_epub_silent (b a : string) : keeps silent (build_epub b a).
Proof.
  apply build_epub_keeps; [apply _|..].
  - unfold open_writer, _parse_unpacked_metadata, getitem.
    keeps_steps silent_prims.
  - unfold _parse_unpacked_rune_chapters. keeps_steps silent_prims.
  - intros. apply write_chapter_silent.
  - intros. apply exit_silent.
Qed.

Lemma zip_epub_silent (b : string) : keeps silent (zip_epub b).
Proof.
  unfold zip_epub, zip_members, ZipFile_write. keeps_steps silent_prims.
Qed.

(** A stage that only adds requests to the events is called, and returns
    unless it raises. *)
Lemma run_stage_events (s : stage) (m : M ()) (w w' : world) (r : result ()) :
  keeps requests_only m → run_stage s m w = (r, w') →
  ∃ events, log w' = log w ++ events
    ∧ stage_events events
      = if raises r then [Call s] else [Call s; Return s].
Proof.
  intros Hm. unfold run_stage, mbind, M_bind. simpl.
  destruct (m _) as [[[]|e] w1] eqn:Hw; intros [= <- <-];
    apply Hm in Hw as (evs & Hlog & Hst); simpl in *.
  - exists ([Call s] ++ evs ++ [Return s]).
    rewrite Hlog, !stage_events_app, Hst, <- !app_assoc. done.
  - exists ([Call s] ++ evs).
    rewrite Hlog, !stage_events_app, Hst, <- !app_assoc. done.
Qed.

Lemma main_events `{ArgParse} (argv : list string) (w w' : world)
    (r : result ()) :
  main argv w = (r, w') →
  ∃ events, log w' = log w ++ events
    ∧ stage_events events `prefix_of` pipeline
    ∧ (r = Ok () ↔ stage_events events = pipeline).
Proof.
  unfold main. destruct (parse_args parser argv) as [args|]; cycle 1.
  { intros [= <- <-]. exists []. rewrite app_nil_r.
    split_and!; [done | by eexists | done]. }
  unfold getattr, mbind at 1 2, M_bind, mret, M_ret.
  destruct (args !! "id") as [b|]; cycle 1.
  { intros [= <- <-]. exists []. rewrite app_nil_r.
    split_and!; [done | by eexists | done]. }
  destruct (args !! "author") as [a|]; cycle 1.
  { intros [= <- <-]. exists []. rewrite app_nil_r.
    split_and!; [done | by eexists | done]. }
  unfold mbind, M_bind.
  destruct (run_stage Download _ w) as [r1 w1] eqn:H1.
  apply run_stage_events in H1 as (e1 & L1 & S1);
    [|apply download_requests].
  destruct r1 as [[]|x]; simpl in S1; cycle 1.
  { intros [= <- <-]. exists e1. rewrite S1.
    split_and!; [done | by eexists | done]. }
  destruct (run_stage Unpack _ w1) as [r2 w2] eqn:H2.
  apply run_stage_events in H2 as (e2 & L2 & S2);
    [|apply keeps_silent_requests, unpack_silent].
  destruct r2 as [[]|x]; simpl in S2; cycle 1.
  { intros [= <- <-]. exists (e1 ++ e2).
    rewrite L2, L1, stage_events_app, S1, S2, <- app_assoc.
    split_and!; [done | by eexists | done]. }
  destruct (run_stage BuildEpub _ w2) as [r3 w3] eqn:H3.
  apply run_stage_events in H3 as (e3 & L3 & S3);
    [|apply keeps_silent_requests, build_epub_silent].
  destruct r3 as [[]|x]; simpl in S3; cycle 1.
  { intros [= <- <-]. exists (e1 ++ e2 ++ e3).
    rewrite L3, L2, L1, !stage_events_app, S1, S2, S3, <- !app_assoc.
    split_and!; [done | by eexists | done]. }
  intros H4.
  apply run_stage_events in H4 as (e4 & L4 & S4);
    [|apply keeps_silent_requests, zip_epub_silent].
  exists (e1 ++ e2 ++ e3 ++ e4).
  rewrite L4, L3, L2, L1, !stage_events_app, S1, S2, S3, S4, <- !app_assoc.
  destruct r as [[]|x]; simpl; split_and!; done || by eexists.
Qed.

End Stages.

(** C7 (amended). In every run the stages are called in the order download,
    unpack, [build_epub], [zip_epub], each at most once and none before the
    one before it has returned: the calls and returns of a run are an
    initial part of the sequence in which each stage is called once and
    returns. They are the whole sequence exactly when the run ends without
    an exception. *)
Theorem C7_pipeline_order `{Host} `{ArgParse} (argv : list string)
    (w : world) :
  ∃ events,
    log (main argv w).2 = log w ++ events
    ∧ stage_events events `prefix_of` pipeline
    ∧ ((main argv w).1 = Ok () ↔ stage_events events = pipeline).
Proof.
  destruct (main argv w) as [r w'] eqn:Hm. by eapply main_events.
Qed.

(** C7 as stated fails on a run whose download fails: the server has no
    such book, [download] raises, and no other stage is called. *)
Lemma C7_failed_download_counterexample :
  let run := main (H := sample_host) ["-i"; "none"; "-a"; "Snorri"]
               fresh_world in
  run.1 = Raise (FileNotFoundError "/home/u/.runepub/none/temp/txt.zip")
  ∧ stage_events (log run.2) = [Call Download].
Proof. vm_compute. done. Qed.

(** ** The files a computation writes *)

Lemma touches_prims (S : string → Prop) (p : string) (e : event) :
  keeps (touches S) (Os.isfile p) ∧ keeps (touches S) (Os.isdir p)
  ∧ keeps (touches S) (Os.exists_ p) ∧ keeps (touches S) (Os.read_file p)
  ∧ keeps (touches S) (Os.walk p) ∧ keeps (touches S) (Os.mkdir p)
  ∧ keeps (touches S) (Os.makedirs p) ∧ keeps (touches S) (Os.rmdir p)
  ∧ keeps (touches S) (answer p) ∧ keeps (touches S) (emit e).
Proof. split_and!; prim_effect; done. Qed.

Lemma write_file_touches (S : string → Prop) (p c : string) :
  S p → keeps (touches S) (Os.write_file p c).
Proof.
  intros Hp. prim_effect; try done. intros p' Hp'. simpl.
  apply lookup_insert_ne. by intros <-.
Qed.

Lemma append_file_touches (S : string → Prop) (p c : string) :
  S p → keeps (touches S) (Os.append_file p c).
Proof.
  intros Hp. prim_effect. intros p' Hp'. simpl.
  apply lookup_alter_ne. by intros <-.
Qed.

Lemma rename_touches (S : string → Prop) (src dst : string) :
  S src → S dst → keeps (touches S) (Os.rename src dst).
Proof.
  intros Hs Hd. prim_effect; try done. intros p' Hp'. simpl.
  rewrite lookup_insert_ne by (by intros <-).
  apply lookup_delete_ne. by intros <-.
Qed.

Lemma rmtree_touches (S : string → Prop) (d : string) :
  (∀ p, Os.inside d p = true → S p) → keeps (touches S) (Os.rmtree d).
Proof.
  intros Hd. prim_effect; try done. intros p' Hp'. simpl.
  destruct (files w !! p') as [c|] eqn:Hc.
  - apply map_lookup_filter_Some. split; [done|]. simpl.
    intros Hin%Is_true_true. by apply Hp', Hd.
  - apply map_lookup_filter_None. by left.
Qed.

Lemma grows_prims (p c : string) (e : event) :
  keeps grows (Os.isfile p) ∧ keeps grows (Os.isdir p)
  ∧ keeps grows (Os.exists_ p) ∧ keeps grows (Os.read_file p)
  ∧ keeps grows (Os.walk p) ∧ keeps grows (Os.mkdir p)
  ∧ keeps grows (Os.makedirs p) ∧ keeps grows (Os.rmdir p)
  ∧ keeps grows (Os.write_file p c) ∧ keeps grows (Os.append_file p c).
Proof.
  split_and!; prim_effect; intros p' Hp'; simpl; try done.
  - destruct (decide (p = p')) as [->|Hne].
    + rewrite lookup_insert_eq. by eexists.
    + by rewrite lookup_insert_ne.
  - rewrite lookup_alter. case_decide; [|done]. subst.
    destruct Hp' as [x ->]. by eexists.
Qed.

Lemma startswith_app_r (p x y : string) :
  Py.startswith p x = true → Py.startswith p (x +:+ y) = true.
Proof.
  intros (t & ->)%startswith_split. rewrite sapp_assoc. apply startswith_app.
Qed.

Lemma slast_app (s t : string) : t ≠ "" → slast (s +:+ t) = slast t.
Proof.
  intros Ht. induction s as [|c s IH]; [done|]. rewrite sapp_cons.
  change (slast (String c (s +:+ t)))
    with (match s +:+ t with "" => Some c | _ => slast (s +:+ t) end).
  rewrite IH. destruct s, t; done.
Qed.

Lemma split_last_tail (p : string) : Py.count "/" (Os.split_last p).2 = 0%nat.
Proof.
  induction p as [|c r IH]; [done|].
  change (Os.split_last (String c r))
    with (let '(h, t) := Os.split_last r in
          if Py.contains "/" r then (String c h, t)
          else if Ascii.eqb c "/" then ("/", r)
          else ("", String c r)).
  destruct (Os.split_last r) as [h t]. simpl in IH.
  rewrite contains_char.
  destruct (Py.count "/" r) as [|k] eqn:Hr; [|done]. simpl.
  destruct (Ascii.eqb c "/") eqn:Hc; simpl; [done|]. by rewrite Hc, Hr.
Qed.

Lemma count_startswith (c : ascii) (s : string) :
  Py.count c s = 0%nat → Py.startswith (String c "") s = false.
Proof.
  destruct s as [|a s]; [done|]. simpl. rewrite (Ascii.eqb_sym c a).
  by destruct (Ascii.eqb a c).
Qed.

Lemma basename_rel (p : string) : Py.startswith "/" (Os.basename p) = false.
Proof. apply count_startswith, split_last_tail. Qed.

Section Private.
Context `{Host}.

Lemma join2_private (b x n : string) :
  private b x = true → Py.startswith "/" n = false →
  private b (Path.join2 x n) = true.
Proof.
  intros Hx Hn. unfold Path.join2. rewrite Hn.
  destruct (_ || _); unfold private in *; by apply startswith_app_r.
Qed.

Lemma join_private (b x : string) (names : list string) :
  private b x = true → Forall (λ n, Py.startswith "/" n = false) names →
  private b (Path.join x names) = true.
Proof.
  intros Hx Hn. revert x Hx. unfold Path.join.
  induction Hn as [|n names Hn _ IH]; intros x Hx; simpl; [done|].
  apply IH. by apply join2_private.
Qed.

Lemma dirs_private (b : string) :
  private b (_get_temp_dir b) = true
  ∧ private b (_get_downloaded_dir b) = true
  ∧ private b (_get_unpack_dir b) = true
  ∧ private b (_get_build_dir b) = true.
Proof.
  rewrite temp_dir_eq, downloaded_dir_eq, unpack_dir_eq, build_dir_eq.
  split_and!; apply private_root.
Qed.

Lemma inside_dirs_private (b p : string) :
  (Os.inside (_get_unpack_dir b) p = true → private b p = true)
  ∧ (Os.inside (_get_build_dir b) p = true → private b p = true).
Proof.
  rewrite unpack_dir_eq, build_dir_eq. split; apply inside_private.
Qed.

End Private.

(** ** The files of a run *)

Lemma split_pieces (c : ascii) (s : string) :
  Forall (λ x, Py.count c x = 0%nat) (Py.split c s).
Proof.
  induction s as [|a s IH]; simpl; [by repeat constructor|].
  destruct (Ascii.eqb a c) eqn:Hac; [by constructor|].
  destruct (Py.split c s) as [|x xs]; simpl.
  - repeat constructor. simpl. by rewrite Hac.
  - inversion IH; subst. constructor; [|done]. simpl. by rewrite Hac.
Qed.

Lemma extract_name_rel (filename : string) :
  Py.startswith "/" (extract_name filename) = false.
Proof.
  unfold extract_name. pose proof (split_pieces "/" filename) as Hp.
  induction Hp as [|x xs Hx _ IH]; [done|]. simpl.
  destruct (valid_part x) eqn:Hv; [|done].
  assert (Py.startswith "/" x = false) as Hs by by apply count_startswith.
  assert (x ≠ "") as Hne by (by intros ->).
  destruct (List.filter valid_part xs) as [|y ys]; simpl; [done|].
  destruct x; [done|]. simpl in *. done.
Qed.

(** Steps through a computation for the files it writes; [side] proves that
    a path written is one of those allowed. *)
Ltac touch_steps side :=
  repeat first
    [ match goal with
      | |- PreOrder _ => apply _
      | |- ∀ _, keeps _ _ => intros ?
      | |- string => exact ""
      | |- event => exact (HttpGet "")
      end
    | apply touches_prims
    | apply write_file_touches; side
    | apply append_file_touches; side
    | apply rename_touches; side
    | apply rmtree_touches; side
    | apply keeps_ret | apply keeps_raise | apply keeps_lift
    | apply keeps_if | apply keeps_try
    | apply keeps_for_each
    | apply keeps_mapM
    | apply keeps_bind
    | progress case_match ].

Section Frame.
Context `{Host}.

Ltac private_path :=
  first
    [ apply dirs_private
    | apply join_private;
        [private_path
        | repeat constructor;
            first [done | apply basename_rel | apply extract_name_rel]]
    | intros ? ?;
        first [ by apply (proj1 (inside_dirs_private _ _))
              | by apply (proj2 (inside_dirs_private _ _)) ] ].

Lemma download_touches (b : string) :
  keeps (touches (λ p, private b p = true)) (download b).
Proof.
  unfold download, _get_download_items. cbn [for_each].
  unfold download_item, requests_get, Os.move. cbn [zip_filename url].
  touch_steps private_path.
Qed.

Lemma unpack_touches (b : string) :
  keeps (touches (λ p, private b p = true)) (unpack b).
Proof.
  unfold unpack, _get_download_items. cbn [for_each].
  unfold unpack_item, ZipFile_read, extract_member. cbn [zip_filename url].
  touch_steps private_path.
Qed.

End Frame.

Lemma range_reader_keeps `{Host} (R : relation world) `{!PreOrder R}
    (b : string) (ranges : list (list Z)) :
  keeps R (range_reader b ranges).
Proof. intros w r w' [= <- <-]. reflexivity. Qed.

Section FrameBuild.
Context `{Host}.

Ltac private_path :=
  first
    [ apply dirs_private
    | apply join_private;
        [private_path
        | repeat constructor;
            first [done | apply basename_rel | apply extract_name_rel]]
    | intros ? ?;
        first [ by apply (proj1 (inside_dirs_private _ _))
              | by apply (proj2 (inside_dirs_private _ _)) ] ].

Lemma build_epub_touches (b a : string) :
  keeps (touches (λ p, private b p = true)) (build_epub b a).
Proof.
  apply build_epub_keeps; [apply _|..].
  - unfold open_writer, _parse_unpacked_metadata, getitem,
      EpubWriter.__init__.
    touch_steps private_path.
  - unfold _parse_unpacked_rune_chapters. touch_steps private_path.
  - intros c. unfold write_chapter.
    touch_steps ltac:(first [private_path | apply range_reader_keeps]).
    apply range_reader_keeps; apply _.
  - intros self (Hn & Ho & Hd). unfold EpubWriter.__exit__.
    rewrite Hn, Ho. touch_steps private_path.
Qed.

Lemma zip_epub_touches (b : string) :
  keeps (touches (λ p, p = zip_outfile b)) (zip_epub b).
Proof.
  unfold zip_epub, zip_members, ZipFile_write. touch_steps ltac:(done).
Qed.

Lemma run_stage_touches (S : string → Prop) (s : stage) (m : M ()) :
  keeps (touches S) m → keeps (touches S) (run_stage s m).
Proof. intros Hm. unfold run_stage. touch_steps ltac:(done). exact Hm. Qed.

(** A run writes in the directory of the book and the archive, nowhere
    else. *)
Lemma main_touches `{ArgParse} (argv : list string) (w w' : world)
    (r : result ()) :
  main argv w = (r, w') →
  ∀ b, default "" (parse_args parser argv ≫= (.!! "id")) = b →
  touches (λ p, private b p = true ∨ p = zip_outfile b) w w'.
Proof.
  unfold main. destruct (parse_args parser argv) as [args|]; simpl; cycle 1.
  { intros [= <- <-] b _. reflexivity. }
  unfold getattr, mbind at 1 2, M_bind, mret, M_ret.
  destruct (args !! "id") as [b|]; simpl; cycle 1.
  { intros [= <- <-] b _. reflexivity. }
  destruct (args !! "author") as [a|]; cycle 1.
  { intros [= <- <-] ? _. reflexivity. }
  intros Hrun ? <-. revert w r w' Hrun.
  change (keeps (touches (λ p, private b p = true ∨ p = zip_outfile b))
            (run_stage Download (download b);;
             run_stage Unpack (unpack b);;
             run_stage BuildEpub (build_epub b a);;
             run_stage ZipEpub (zip_epub b))).
  assert (∀ m : M (), keeps (touches (λ p, private b p = true)) m →
            keeps (touches (λ p, private b p = true ∨ p = zip_outfile b)) m)
    as Hp.
  { intros m Hm w r w' Hw. eapply touches_mono; [|by eapply Hm]. tauto. }
  assert (∀ m : M (), keeps (touches (λ p, p = zip_outfile b)) m →
            keeps (touches (λ p, private b p = true ∨ p = zip_outfile b)) m)
    as Hz.
  { intros m Hm w r w' Hw. eapply touches_mono; [|by eapply Hm]. tauto. }
  apply keeps_bind;
    [apply _ | apply Hp, run_stage_touches, download_touches | intros _].
  apply keeps_bind;
    [apply _ | apply Hp, run_stage_touches, unpack_touches | intros _].
  apply keeps_bind;
    [apply _ | apply Hp, run_stage_touches, build_epub_touches | intros _].
  apply Hz, run_stage_touches, zip_epub_touches.
Qed.

End FrameBuild.

(** ** The archive *)

Lemma write_file_ok (p c : string) (w w' : world) (x : ()) :
  Os.write_file p c w = (Ok x, w') →
  files w' = <[p := c]> (files w) ∧ dirs w' = dirs w.
Proof. unfold Os.write_file. repeat case_match; intros [=]; by subst. Qed.

Section Archive.
Context `{Host}.

Lemma members_spec (g : string → string) (l : list string) (w w' : world)
    (ms : list (string * string)) :
  mapM (λ fp, ZipFile_write fp (g fp)) l w = (Ok ms, w') →
  w' = w ∧ ∀ p c, p ∈ l → files w !! p = Some c → (zip_arcname (g p), c) ∈ ms.
Proof.
  revert ms. induction l as [|x l IH]; intros ms.
  { intros [= <- <-]. split; [done|]. by intros p c ?%elem_of_nil. }
  cbn [mapM]. unfold mbind at 1, M_bind, ZipFile_write at 1.
  unfold mbind at 1, M_bind, Os.read_file at 1.
  destruct (files w !! x) as [cx|] eqn:Hx; cycle 1.
  { by destruct (Os.is_dir w x). }
  unfold mret at 1, M_ret at 1. unfold mbind at 1, M_bind.
  destruct (mapM (M := M) (λ fp, ZipFile_write fp (g fp)) l w)
    as [[ms'|e] w1] eqn:Hl; [|done].
  intros [= <- <-]. destruct (IH ms' eq_refl) as [-> Hms]. split; [done|].
  intros p c [->|Hp]%elem_of_cons Hc.
  - rewrite Hx in Hc. injection Hc as ->. by left.
  - right. by apply Hms.
Qed.

Lemma zip_members_spec (b : string) (w w' : world)
    (ms : list (string * string)) :
  zip_members b w = (Ok ms, w') →
  w' = w
  ∧ ∀ p c, files w !! p = Some c → Os.inside (_get_build_dir b) p = true →
      (zip_arcname (drop_chars (String.length (_get_build_dir b)) p), c) ∈ ms.
Proof.
  unfold zip_members, mbind at 1, M_bind, Os.walk.
  intros [-> Hms]%members_spec. split; [done|]. intros p c Hc Hin.
  apply Hms; [|done]. apply list_elem_of_filter. split; [by rewrite Hin|].
  apply elem_of_elements, elem_of_dom. by eexists.
Qed.

(** What [zip_epub] leaves when it returns: the archive, with a member for
    every file that was below the build directory. *)
Lemma zip_epub_ok (b : string) (w w' : world) :
  zip_epub b w = (Ok (), w') →
  ∃ ms, files w' !! zip_outfile b = Some (zip_encode ms)
    ∧ ∀ p c, files w !! p = Some c → p ≠ zip_outfile b →
        Os.inside (_get_build_dir b) p = true →
        (zip_arcname (drop_chars (String.length (_get_build_dir b)) p), c)
        ∈ ms.
Proof.
  unfold zip_epub, mbind, M_bind.
  destruct (Os.isdir "." w) as [[d|?] w0] eqn:Hd; [|done].
  injection Hd as _ <-.
  destruct ((if d then mret () else Os.makedirs ".") w) as [[[]|?] w1] eqn:H1;
    [|done].
  assert (files w1 = files w) as Hf1.
  { destruct d; [by injection H1 as <-|]. by apply makedirs_dirs in H1 as [? _]. }
  destruct (Os.write_file _ "" w1) as [[[]|?] w2] eqn:H2; [|done].
  apply write_file_ok in H2 as [Hf2 _].
  destruct (zip_members b w2) as [[ms|?] w3] eqn:H3; [|done].
  apply zip_members_spec in H3 as [-> Hms].
  intros [Hf3 _]%write_file_ok. exists ms. split.
  - by rewrite Hf3, lookup_insert_eq.
  - intros p c Hc Hne Hin. apply Hms; [|done].
    by rewrite Hf2, lookup_insert_ne, Hf1.
Qed.

Lemma zip_outfile_eq (b : string) :
  zip_outfile b
  = if Py.startswith "/" b then b +:+ ".epub" else "./" +:+ b +:+ ".epub".
Proof.
  unfold zip_outfile, Path.join, Path.join2. simpl.
  by destruct b as [|c b]; [|destruct (Ascii.eqb "/" c)].
Qed.

Lemma run_stage_ok (s : stage) (m : M ()) (w w' : world) :
  run_stage s m w = (Ok (), w') →
  ∃ w1, m (emit (Call s) w).2 = (Ok (), w1) ∧ files w' = files w1.
Proof.
  unfold run_stage, mbind, M_bind. simpl.
  destruct (m _) as [[[]|e] w1]; [|done]. intros [= <-]. by exists w1.
Qed.

End Archive.

(** C5 (amended). The command line declares exactly two arguments, the book
    id ([-i], [--id]) and the author ([-a], [--author]), both required, and
    the parser returns only with a value for each. A run that completes
    leaves, outside the directory of the book under [~/.runepub], exactly
    one file changed: the archive it writes at [os.path.join(".", id +
    ".epub")], which is [./<id>.epub], in the working directory, unless the
    id starts with [/]. *)
Theorem C5_command_line `{Host} `{ArgParse} (argv : list string)
    (w w' : world) :
  main argv w = (Ok (), w') →
  flags <$> parser = [["-i"; "--id"]; ["-a"; "--author"]]
  ∧ required <$> parser = [true; true]
  ∧ (∀ argv' args', parse_args parser argv' = Some args' →
       is_Some (args' !! "id") ∧ is_Some (args' !! "author"))
  ∧ ∃ args b a,
      parse_args parser argv = Some args
      ∧ args !! "id" = Some b ∧ args !! "author" = Some a
      ∧ (∃ members, files w' !! zip_outfile b = Some (zip_encode members))
      ∧ (∀ p, private b p = false → p ≠ zip_outfile b →
           files w' !! p = files w !! p)
      ∧ zip_outfile b
        = (if Py.startswith "/" b then b +:+ ".epub"
           else "./" +:+ b +:+ ".epub").
Proof.
  intros Hrun. split_and!; [done..| |].
  { intros argv' args' Hp. split.
    - apply (parse_args_required parser argv' args' (Argument ["-i"; "--id"] true "id"));
        [done | set_solver | done].
    - apply (parse_args_required parser argv' args'
               (Argument ["-a"; "--author"] true "author"));
        [done | set_solver | done]. }
  pose proof (main_touches argv w w' _ Hrun) as Hframe.
  unfold main in Hrun.
  destruct (parse_args parser argv) as [args|] eqn:Hargs; [|done].
  unfold getattr, mbind at 1 2, M_bind, mret, M_ret in Hrun.
  destruct (args !! "id") as [b|] eqn:Hb; [|done].
  destruct (args !! "author") as [a|] eqn:Ha; [|done].
  exists args, b, a. split_and!; [done..| | |apply zip_outfile_eq].
  - unfold mbind, M_bind in Hrun.
    destruct (run_stage Download _ w) as [[[]|?] w1]; [|done].
    destruct (run_stage Unpack _ w1) as [[[]|?] w2]; [|done].
    destruct (run_stage BuildEpub _ w2) as [[[]|?] w3]; [|done].
    apply run_stage_ok in Hrun as (w4 & Hz & Hf).
    apply zip_epub_ok in Hz as (ms & Hout & _). exists ms. by rewrite Hf.
  - intros p Hp Hne. apply (Hframe b); [by simpl; rewrite Hb|].
    intros [Hpriv | ->]; [congruence | done].
Qed.

Lemma C5_command_line_witness :
  ∃ w', main (H := sample_host) ["-i"; "saga"; "-a"; "Snorri"] fresh_world
        = (Ok (), w')
    ∧ zip_outfile "saga" = "./saga.epub"
    ∧ is_Some (files w' !! "./saga.epub")
    ∧ files w' !! "./Snorri.epub" = None.
Proof.
  set (run := main (H := sample_host) ["-i"; "saga"; "-a"; "Snorri"]
                fresh_world).
  assert (run = (Ok (), run.2)) as Hrun by (vm_compute; reflexivity).
  pose proof (C5_command_line (H := sample_host) _ _ _ Hrun)
    as (_ & _ & _ & args & b & a & Hargs & Hb & Ha & Hout & Hframe & Hname).
  exists run.2. split; [exact Hrun|].
  assert (b = "saga") as ->.
  { vm_compute in Hargs. injection Hargs as <-. vm_compute in Hb. congruence. }
  split; [reflexivity|]. split.
  - destruct Hout as [ms Hms].
    exists (zip_encode (Host := sample_host) ms). exact Hms.
  - rewrite Hframe; [reflexivity | reflexivity | ].
    intros Heq. vm_compute in Heq. discriminate.
Defined.

(** C5 as stated fails for a book id that is an absolute path: with the
    archive of the book already downloaded below [/x], the run completes and
    writes [/x.epub]; every other file it leaves is below [/x/], and none is
    in the working directory. *)
Lemma C5_absolute_id_counterexample :
  let w := World {[ "/x/downloaded/txt.zip" := "PK-saga" ]}
             {["."; "/"; "/x"; "/x/downloaded"]} sample_net [] in
  let run := main (H := sample_host) ["-i"; "/x"; "-a"; "Snorri"] w in
  run.1 = Ok ()
  ∧ zip_outfile "/x" = "/x.epub"
  ∧ is_Some (files run.2 !! "/x.epub")
  ∧ List.filter (λ p, negb (Py.startswith "/x/" p))
      (elements (dom (files run.2))) = ["/x.epub"].
Proof. vm_compute. split_and!; [done | done | by eexists | done]. Qed.

(** ** The files of a build *)

Lemma join2_plain (d n : string) :
  plain d → Py.startswith "/" n = false →
  Path.join2 d n = d +:+ "/" +:+ n.
Proof.
  intros [Hd He] Hn. unfold Path.join2. rewrite Hn, He.
  apply String.eqb_neq in Hd. by rewrite Hd.
Qed.

Lemma plain_app (d n : string) :
  n ≠ "" → Path.endswith_sep n = false → plain (d +:+ n).
Proof.
  intros Hn He. split; [by destruct d, n|]. by rewrite endswith_sep_app.
Qed.

Lemma join_plain1 (d n : string) :
  plain d → Py.startswith "/" n = false →
  Path.join d [n] = d +:+ "/" +:+ n.
Proof. intros. unfold Path.join. simpl. by apply join2_plain. Qed.

Lemma join_plain2 (d m n : string) :
  plain d → Py.startswith "/" m = false → m ≠ "" →
  Path.endswith_sep m = false → Py.startswith "/" n = false →
  Path.join d [m; n] = d +:+ "/" +:+ m +:+ "/" +:+ n.
Proof.
  intros Hd Hm Hm0 Hme Hn. unfold Path.join. simpl.
  rewrite (join2_plain d m) by done.
  rewrite join2_plain; [by rewrite !sapp_assoc | | done].
  rewrite <- sapp_assoc. by apply plain_app.
Qed.

Lemma inside_plain (d s : string) :
  plain d → Os.inside d (d +:+ "/" +:+ s) = true.
Proof.
  intros Hd. unfold Os.inside. rewrite join2_plain by done.
  rewrite <- !sapp_assoc, sapp_nil_r. apply startswith_app.
Qed.

Lemma drop_chars_app (d s : string) : drop_chars (String.length d) (d +:+ s) = s.
Proof. induction d as [|c d IH]; simpl; [by destruct s | done]. Qed.

Lemma sapp_last_ne (x y s t : string) :
  s ≠ "" → t ≠ "" → slast s ≠ slast t → x +:+ s ≠ y +:+ t.
Proof.
  intros Hs Ht Hne Heq. apply (f_equal slast) in Heq.
  by rewrite !slast_app in Heq.
Qed.

Lemma zip_outfile_last (b : string) : slast (zip_outfile b) = Some "b"%char.
Proof.
  rewrite zip_outfile_eq.
  destruct (Py.startswith "/" b).
  - by rewrite slast_app.
  - rewrite slast_app by (by destruct b). by rewrite slast_app.
Qed.

Lemma build_dir_plain `{Host} (b : string) : plain (_get_build_dir b).
Proof. rewrite build_dir_eq. by apply plain_app. Qed.

(** What [EpubWriter.__init__] leaves when it returns. *)
Lemma init_ok (d a t : string) (w w' : world) (writer : EpubWriter.t) :
  plain d →
  EpubWriter.__init__ d a t w = (Ok writer, w') →
  files w' !! (d +:+ "/mimetype") = Some "application/epub+zip"
  ∧ files w' !! (d +:+ "/META-INF/container.xml") = Some container_xml
  ∧ is_Some (files w' !! (d +:+ "/OEBPS/book.opf"))
  ∧ is_Some (files w' !! (d +:+ "/OEBPS/book.ncx")).
Proof.
  intros Hd. unfold EpubWriter.__init__, mbind, M_bind.
  rewrite !join_plain1, !join_plain2 by done.
  destruct (Os.makedirs _ w) as [[[]|?] w1]; [|done].
  destruct (Os.makedirs _ w1) as [[[]|?] w2]; [|done].
  destruct (Os.write_file _ _ w2) as [[[]|?] w3] eqn:H3; [|done].
  destruct (Os.write_file _ _ w3) as [[[]|?] w4] eqn:H4; [|done].
  destruct (Os.write_file _ _ w4) as [[[]|?] w5] eqn:H5; [|done].
  destruct (Os.write_file _ _ w5) as [[[]|?] w6] eqn:H6; [|done].
  apply write_file_ok in H3 as [F3 _], H4 as [F4 _], H5 as [F5 _],
    H6 as [F6 _].
  intros [= _ <-]. rewrite F6, F5, F4, F3.
  assert (∀ s s' : string, s ≠ s' → d +:+ s ≠ d +:+ s') as Hne.
  { intros s s' Hst Heq. by apply String.app_inj in Heq. }
  split_and!.
  - rewrite !lookup_insert_ne by (by apply Hne). apply lookup_insert_eq.
  - rewrite !lookup_insert_ne by (by apply Hne). apply lookup_insert_eq.
  - rewrite lookup_insert_ne by (by apply Hne).
    rewrite lookup_insert_eq. by eexists.
  - rewrite lookup_insert_eq. by eexists.
Qed.

Section BuildFiles.
Context `{Host}.

(** The block of the [with] statement and [__exit__] write below [OEBPS]
    only, and remove no file. *)
Lemma with_writer_oebps (b : string) (writer : EpubWriter.t) :
  writer_of (_get_build_dir b) writer →
  keeps (touches (λ p, Py.startswith (_get_build_dir b +:+ "/OEBPS/") p = true))
    (with_writer writer (with_block b writer))
  ∧ keeps grows (with_writer writer (with_block b writer)).
Proof.
  intros Hw. pose proof (build_dir_plain b) as Hd.
  assert (∀ n, Py.startswith "/" n = false →
      Py.startswith (_get_build_dir b +:+ "/OEBPS/")
        (Path.join (_get_build_dir b) ["OEBPS"; n]) = true) as Hpath.
  { intros n Hn. rewrite join_plain2 by done.
    change (_get_build_dir b +:+ "/" +:+ "OEBPS" +:+ "/" +:+ n)
      with (_get_build_dir b +:+ "/OEBPS/" +:+ n).
    rewrite <- sapp_assoc. apply startswith_app. }
  split.
  - apply with_writer_keeps with (d := _get_build_dir b); [apply _|..].
    + apply with_block_keeps; [apply _ | done | |].
      * unfold _parse_unpacked_rune_chapters. touch_steps ltac:(done).
      * intros c. unfold write_chapter.
        touch_steps ltac:(first [by apply Hpath | apply range_reader_keeps]).
        apply range_reader_keeps; apply _.
    + intros self (Hn & Ho & _). unfold EpubWriter.__exit__.
      rewrite Hn, Ho. touch_steps ltac:(by apply Hpath).
  - apply with_writer_keeps with (d := _get_build_dir b); [apply _|..].
    + apply with_block_keeps; [apply _ | done | |].
      * unfold _parse_unpacked_rune_chapters. keeps_steps grows_prims.
      * intros c. unfold write_chapter.
        keeps_steps grows_prims. apply range_reader_keeps; apply _.
    + intros self _. unfold EpubWriter.__exit__. keeps_steps grows_prims.
Qed.

(** What [build_epub] leaves when it returns. *)
Lemma build_epub_ok (b a : string) (w w' : world) :
  build_epub b a w = (Ok (), w') →
  let d := _get_build_dir b in
  files w' !! (d +:+ "/mimetype") = Some "application/epub+zip"
  ∧ files w' !! (d +:+ "/META-INF/container.xml") = Some container_xml
  ∧ is_Some (files w' !! (d +:+ "/OEBPS/book.opf"))
  ∧ is_Some (files w' !! (d +:+ "/OEBPS/book.ncx")).
Proof.
  intros Hb d. unfold build_epub, mbind, M_bind in Hb.
  destruct (open_writer b a w) as [[writer|?] wa] eqn:Ho; [|done].
  assert (writer_of d writer ∧
          EpubWriter.__init__ d a
            (default "" (match _parse_unpacked_metadata b
                                 (Os.makedirs d
                                    ((if Os.is_dir w d then Os.rmtree d
                                      else mret ()) w).2).2
                         with (Ok m, _) => m !! "TITLE" | _ => None end))
            (_parse_unpacked_metadata b
               (Os.makedirs d
                  ((if Os.is_dir w d then Os.rmtree d else mret ()) w).2).2).2
          = (Ok writer, wa)) as [Hw Hi].
  { revert Ho. unfold open_writer, mbind, M_bind, Os.isdir. fold d.
    destruct ((if Os.is_dir w d then Os.rmtree d else mret ()) w)
      as [[[]|?] w1]; [|done]. simpl.
    destruct (Os.makedirs d w1) as [[[]|?] w2]; [|done]. simpl.
    destruct (_parse_unpacked_metadata b w2) as [[m|?] w3]; [|done]. simpl.
    unfold getitem. destruct (m !! "TITLE") as [t|]; [|done]. simpl.
    intros Hi. split; [by eapply init_writer_of | done]. }
  apply init_ok in Hi as (Hm & Hc & Hopf & Hncx); [|apply build_dir_plain].
  destruct (with_writer_oebps b writer Hw) as [Ht Hg].
  specialize (Ht _ _ _ Hb). specialize (Hg _ _ _ Hb).
  split_and!.
  - rewrite Ht; [done|]. fold d. rewrite startswith_app_same. done.
  - rewrite Ht; [done|]. fold d. rewrite startswith_app_same. done.
  - by apply Hg.
  - by apply Hg.
Qed.

End BuildFiles.

(** C4. After a build that succeeds, the archive that [zip_epub] writes has
    a member named [mimetype] whose content is [application/epub+zip], a
    member [OEBPS/book.opf], a member [OEBPS/book.ncx], and a member
    [META-INF/container.xml] whose root file is [OEBPS/book.opf]. *)
Theorem C4_archive_members `{Host} (b a : string) (w w1 w1' w2 : world) :
  build_epub b a w = (Ok (), w1) →
  files w1' = files w1 →
  zip_epub b w1' = (Ok (), w2) →
  ∃ members,
    files w2 !! zip_outfile b = Some (zip_encode members)
    ∧ ("mimetype", "application/epub+zip") ∈ members
    ∧ (∃ c, ("OEBPS/book.opf", c) ∈ members)
    ∧ (∃ c, ("OEBPS/book.ncx", c) ∈ members)
    ∧ ("META-INF/container.xml", container_xml) ∈ members
    ∧ Py.contains
        ("<rootfile full-path=" +:+ Py.dquote +:+ "OEBPS/book.opf"
         +:+ Py.dquote)
        container_xml = true.
Proof.
  intros Hb Hf Hz.
  apply build_epub_ok in Hb as (Hm & Hc & [opf Hopf] & [ncx Hncx]).
  apply zip_epub_ok in Hz as (ms & Hout & Hms).
  pose proof (build_dir_plain b) as Hd.
  rewrite <- Hf in Hm, Hc, Hopf, Hncx.
  assert (∀ s, s ≠ "" → slast s ≠ Some "b"%char →
            _get_build_dir b +:+ "/" +:+ s ≠ zip_outfile b) as Hne.
  { intros s Hs Hl Heq. apply (f_equal slast) in Heq.
    rewrite zip_outfile_last in Heq.
    change (_get_build_dir b +:+ "/" +:+ s)
      with (_get_build_dir b +:+ ("/" +:+ s)) in Heq.
    rewrite slast_app in Heq by done. simpl in Heq. by destruct s. }
  assert (∀ s c name, s ≠ "" → slast s ≠ Some "b"%char →
            files w1' !! (_get_build_dir b +:+ "/" +:+ s) = Some c →
            zip_arcname ("/" +:+ s) = name → (name, c) ∈ ms) as Hin.
  { intros s c name Hs Hl Hfile <-.
    specialize (Hms _ c Hfile (Hne s Hs Hl) (inside_plain _ s Hd)).
    by rewrite drop_chars_app in Hms. }
  exists ms. split_and!; [done|..].
  - by apply (Hin "mimetype").
  - exists opf. by apply (Hin "OEBPS/book.opf").
  - exists ncx. by apply (Hin "OEBPS/book.ncx").
  - by apply (Hin "META-INF/container.xml").
  - by vm_compute.
Qed.

Lemma C4_archive_members_witness :
  let unpacked :=
    (unpack (H := sample_host) "saga"
       (download (H := sample_host) "saga" fresh_world).2).2 in
  let built := (build_epub (H := sample_host) "saga" "Snorri" unpacked).2 in
  let zipped := (zip_epub (H := sample_host) "saga" built).2 in
  build_epub (H := sample_host) "saga" "Snorri" unpacked = (Ok (), built)
  ∧ zip_epub (H := sample_host) "saga" built = (Ok (), zipped)
  ∧ ∃ members,
      files zipped !! "./saga.epub"
      = Some (zip_encode (Host := sample_host) members)
      ∧ ("mimetype", "application/epub+zip") ∈ members
      ∧ ("META-INF/container.xml", container_xml) ∈ members.
Proof.
  intros unpacked built zipped.
  assert (build_epub (H := sample_host) "saga" "Snorri" unpacked
          = (Ok (), built)) as Hb by (vm_compute; reflexivity).
  assert (zip_epub (H := sample_host) "saga" built = (Ok (), zipped))
    as Hz by (vm_compute; reflexivity).
  destruct (C4_archive_members (H := sample_host) "saga" "Snorri" unpacked
              built built zipped Hb eq_refl Hz)
    as (ms & Hout & Hm & _ & _ & Hc & _).
  split; [exact Hb|]. split; [exact Hz|].
  exists ms. split; [exact Hout|]. split; [exact Hm | exact Hc].
Defined.
